(** * dbfreader: argument parsing, value formatting and CSV export

    A shallow embedding of [cmd/dbfreader/main.go].  The program is a thin
    shell over Go's standard library and the go-foxpro-dbf reader, so the
    file starts with small executable models of the library calls the
    program makes ([strings], [path/filepath], [strconv], [time], [fmt],
    the reader's cast helpers), then embeds [main], [exportToCSV] and
    [formatValueForCSV], and finally states and proves the properties.

    Conventions: a Go [string] is a [string] of bytes; [uint32], [uint8],
    [int] and [int64] values are [Z] with the wrap-around written where
    the program can overflow; an [error] is its message. *)

From Stdlib Require Import ZArith List String Ascii Bool Lia.
From Stdlib Require Import Numbers.DecimalString Floats.SpecFloat.
From Stdlib Require Import Numbers.DecimalPos Numbers.DecimalZ.
Import ListNotations.

Open Scope string_scope.
Open Scope Z_scope.

(** How a call ends where its panics are followed: with its result,
    with a panic, or with a result this development does not render. *)
Inductive run (A : Type) : Type :=
| Done (a : A)
| Panic (msg : string)
| Unmodelled.
Arguments Done {A} a.
Arguments Panic {A} msg.
Arguments Unmodelled {A}.

(* ================================================================== *)
(** ** Go's [strings] and [path/filepath] *)
(* ================================================================== *)

Module GoStrings.

(** [s[n:]] for [n <= len(s)]. *)
Fixpoint drop (n : nat) (s : string) : string :=
  match n, s with
  | O, _ => s
  | S _, EmptyString => EmptyString
  | S n', String _ s' => drop n' s'
  end.

(** [s[:n]] for [n <= len(s)]. *)
Fixpoint take (n : nat) (s : string) : string :=
  match n, s with
  | O, _ => EmptyString
  | S _, EmptyString => EmptyString
  | S n', String c s' => String c (take n' s')
  end.

Definition HasPrefix (s pre : string) : bool := String.prefix pre s.

Definition HasSuffix (s suf : string) : bool :=
  (String.length suf <=? String.length s)%nat
  && String.eqb (drop (String.length s - String.length suf) s) suf.

Definition TrimPrefix (s pre : string) : string :=
  if HasPrefix s pre then drop (String.length pre) s else s.

Definition TrimSuffix (s suf : string) : string :=
  if HasSuffix s suf then take (String.length s - String.length suf) s else s.

(** [strings.Join]. *)
Fixpoint Join (elems : list string) (sep : string) : string :=
  match elems with
  | [] => ""
  | [x] => x
  | x :: rest => x ++ sep ++ Join rest sep
  end.

(** [strings.Repeat] of a one-byte string. *)
Fixpoint Repeat (c : ascii) (n : nat) : string :=
  match n with
  | O => ""
  | S n' => String c (Repeat c n')
  end.

Definition is_upper (c : ascii) : bool :=
  let n := nat_of_ascii c in ((65 <=? n) && (n <=? 90))%nat.

Definition lower_byte (c : ascii) : ascii :=
  if is_upper c then ascii_of_nat (nat_of_ascii c + 32) else c.

Definition byte_is (c : ascii) (n : nat) : bool := (nat_of_ascii c =? n)%nat.

(** [strings.ToLower] on the UTF-8 bytes of [s], exact on ASCII
    strings: ASCII upper-case letters go to lower case, byte by byte.
    Outside ASCII Go lower-cases every Unicode letter and rewrites
    invalid UTF-8 as U+FFFD; of that, this definition has the two runes
    whose lower-case form is ASCII, U+0130 (bytes C4 B0, to [i]) and
    U+212A (bytes E2 84 AA, to [k]), and copies every other byte.  So on
    a string with other bytes outside ASCII the result is not Go's: it
    only agrees with Go's on being equal or not to an ASCII string, which
    is what the switch of [main] asks of it.  Statements about the text
    of the result are made for ASCII arguments. *)
Fixpoint ToLower (s : string) : string :=
  match s with
  | EmptyString => EmptyString
  | String c s1 =>
      match s1 with
      | EmptyString => String (lower_byte c) EmptyString
      | String c1 s2 =>
          if byte_is c 196 && byte_is c1 176 then String "i" (ToLower s2)
          else
            match s2 with
            | EmptyString => String (lower_byte c) (ToLower s1)
            | String c2 s3 =>
                if byte_is c 226 && byte_is c1 132 && byte_is c2 170
                then String "k" (ToLower s3)
                else String (lower_byte c) (ToLower s1)
            end
      end
  end.

(** The white space of [unicode.IsSpace], as UTF-8 byte sequences:
    U+0009..U+000D, U+0020, U+0085, U+00A0, U+1680, U+2000..U+200A,
    U+2028, U+2029, U+202F, U+205F, U+3000. *)
Definition space_seqs : list (list nat) :=
  [ [9]; [10]; [11]; [12]; [13]; [32];
    [194; 133]; [194; 160]; [225; 154; 128];
    [226; 128; 128]; [226; 128; 129]; [226; 128; 130]; [226; 128; 131];
    [226; 128; 132]; [226; 128; 133]; [226; 128; 134]; [226; 128; 135];
    [226; 128; 136]; [226; 128; 137]; [226; 128; 138];
    [226; 128; 168]; [226; 128; 169]; [226; 128; 175];
    [226; 129; 159]; [227; 128; 128] ]%nat.

Definition bytes_of (s : string) : list nat :=
  List.map nat_of_ascii (list_ascii_of_string s).

Definition string_of_bytes (l : list nat) : string :=
  string_of_list_ascii (List.map ascii_of_nat l).

Fixpoint starts_with (pat l : list nat) : bool :=
  match pat, l with
  | [], _ => true
  | _ :: _, [] => false
  | p :: pat', x :: l' => (p =? x)%nat && starts_with pat' l'
  end.

(** Length in bytes of the white-space rune [l] starts with, if any. *)
Definition leading_space (seqs : list (list nat)) (l : list nat) : option nat :=
  option_map (@List.length nat) (List.find (fun pat => starts_with pat l) seqs).

(** Strip leading white space; [fuel] bounds the runes stripped. *)
Fixpoint trim_left (seqs : list (list nat)) (fuel : nat) (l : list nat) : list nat :=
  match fuel with
  | O => l
  | S fuel' =>
      match leading_space seqs l with
      | Some n => trim_left seqs fuel' (List.skipn n l)
      | None => l
      end
  end.

(** [strings.TrimSpace]: the trailing side is the leading side of the
    reversed bytes against the reversed sequences. *)
Definition TrimSpace (s : string) : string :=
  let l := bytes_of s in
  let l1 := trim_left space_seqs (List.length l) l in
  let r := trim_left (List.map (@List.rev nat) space_seqs) (List.length l1) (List.rev l1) in
  string_of_bytes (List.rev r).

(** [os.IsPathSeparator] on systems other than Windows, where only [/]
    separates.  [main] is embedded with this test; on Windows the test
    is [IsPathSeparator_windows], and [Ext_on] is [filepath.Ext] under
    either. *)
Definition IsPathSeparator (c : ascii) : bool := byte_is c 47.

(** [os.IsPathSeparator] on Windows: [c == '\\' || c == '/']. *)
Definition IsPathSeparator_windows (c : ascii) : bool := byte_is c 92 || byte_is c 47.

(** The backward scan of [filepath.Ext]; [n] is [i + 1]. *)
Fixpoint Ext_scan (path : string) (n : nat) : string :=
  match n with
  | O => ""
  | S i =>
      match String.get i path with
      | None => ""
      | Some c =>
          if IsPathSeparator c then ""
          else if byte_is c 46 then drop i path
          else Ext_scan path i
      end
  end.

(** [filepath.Ext]: the suffix from the last dot of the last path
    element, empty when that element has no dot. *)
Definition Ext (path : string) : string := Ext_scan path (String.length path).

(** [filepath.Ext] under the separator test [sep] of the platform. *)
Fixpoint Ext_scan_on (sep : ascii -> bool) (path : string) (n : nat) : string :=
  match n with
  | O => ""
  | S i =>
      match String.get i path with
      | None => ""
      | Some c =>
          if sep c then ""
          else if byte_is c 46 then drop i path
          else Ext_scan_on sep path i
      end
  end.

Definition Ext_on (sep : ascii -> bool) (path : string) : string :=
  Ext_scan_on sep path (String.length path).

End GoStrings.

(* ================================================================== *)
(** ** Go's [strconv]: integers and [float64] *)
(* ================================================================== *)

Module GoStrconv.

(** [strconv.FormatInt(i, 10)], also the [%d] verb of [fmt]. *)
Definition FormatInt (i : Z) : string := NilZero.string_of_int (Z.to_int i).

Definition digit_char (d : Z) : ascii := ascii_of_nat (48 + Z.to_nat d).

(** The [n] low decimal digits of [N], most significant first. *)
Fixpoint low_digits (n : nat) (N : Z) : string :=
  match n with
  | O => ""
  | S n' => String (digit_char ((N / 10 ^ Z.of_nat n') mod 10)) (low_digits n' N)
  end.

(** A [float64] is an IEEE 754 binary64 datum: [S754_finite s m e] is
    [(-1)^s * m * 2^e]. *)
Definition float64 : Set := spec_float.

Definition is_finite (x : float64) : bool :=
  match x with
  | S754_zero _ | S754_finite _ _ _ => true
  | S754_infinity _ | S754_nan => false
  end.

Definition is_neg (x : float64) : bool :=
  match x with
  | S754_zero s | S754_infinity s | S754_finite s _ _ => s
  | S754_nan => false
  end.

(** [a * 2^e2 * 10^e10] as the fraction [num_of a e2 e10 / den_of e2 e10]. *)
Definition num_of (a e2 e10 : Z) : Z := a * 2 ^ Z.max e2 0 * 10 ^ Z.max e10 0.
Definition den_of (e2 e10 : Z) : Z := 2 ^ Z.max (- e2) 0 * 10 ^ Z.max (- e10) 0.

(** [num / den] rounded to the nearest integer, ties to even ([den > 0]). *)
Definition round_half_even (num den : Z) : Z :=
  let q := num / den in
  let r := num mod den in
  if 2 * r <? den then q
  else if den <? 2 * r then q + 1
  else if Z.even q then q else q + 1.

(** The [%f] layout of [N / 10^p]: integer part, then [p] digits. *)
Definition fmtF (neg : bool) (N : Z) (p : nat) : string :=
  (if neg then "-" else "")
  ++ FormatInt (N / 10 ^ Z.of_nat p)
  ++ match p with
     | O => ""
     | S _ => "." ++ low_digits p N
     end.

Definition special (x : float64) : string :=
  match x with
  | S754_nan => "NaN"
  | S754_infinity false => "+Inf"
  | _ => "-Inf"
  end.

(** [strconv.FormatFloat(x, 'f', prec, 64)] for [prec >= 0]: the exact
    value rounded to [prec] decimals, ties to even. *)
Definition FormatFloat_fixed (x : float64) (prec : Z) : string :=
  match x with
  | S754_zero s => fmtF s 0 (Z.to_nat prec)
  | S754_finite s m e =>
      fmtF s (round_half_even (num_of (Z.pos m) e prec) (den_of e prec)) (Z.to_nat prec)
  | _ => special x
  end.

(** *** Shortest digits that read back as the same [float64] *)

Definition leb_frac (a b c d : Z) : bool := a * d <=? c * b.
Definition ltb_frac (a b c d : Z) : bool := a * d <? c * b.

(** Is [D * 10^k] inside the rounding interval of [m * 2^e]?  The
    interval ends half-way to the neighbouring floats (a quarter step
    below a power of two) and is closed exactly when [m] is even. *)
Definition in_interval (m : positive) (e : Z) (D k : Z) : bool :=
  let below := if (Z.pos m =? 2 ^ 52) && (-1074 <? e) then 1 else 2 in
  let lo_n := num_of (4 * Z.pos m - below) (e - 2) 0 in
  let hi_n := num_of (4 * Z.pos m + 2) (e - 2) 0 in
  let bd := den_of (e - 2) 0 in
  let dn := num_of D 0 k in
  let dd := den_of 0 k in
  if Z.even (Z.pos m)
  then leb_frac lo_n bd dn dd && leb_frac dn dd hi_n bd
  else ltb_frac lo_n bd dn dd && ltb_frac dn dd hi_n bd.

(** The [k] with [10^(k-1) <= m * 2^e < 10^k], searched downwards. *)
Fixpoint dec_exp (fuel : nat) (m : positive) (e : Z) (k : Z) : Z :=
  match fuel with
  | O => k
  | S fuel' =>
      if leb_frac (num_of 1 0 (k - 1)) (den_of 0 (k - 1)) (num_of (Z.pos m) e 0) (den_of e 0)
      then k
      else dec_exp fuel' m e (k - 1)
  end.

Fixpoint strip_zeros (fuel : nat) (D k : Z) : Z * Z :=
  match fuel with
  | O => (D, k)
  | S fuel' =>
      if (D =? 0) || negb (D mod 10 =? 0) then (D, k)
      else strip_zeros fuel' (D / 10) (k + 1)
  end.

(** Try [n], [n+1], ... significant digits; the first candidate inside
    the interval wins, the nearest one being tried first. *)
Fixpoint shortest_from (fuel : nat) (m : positive) (e : Z) (k10 : Z) (n : Z) : Z * Z :=
  let k := k10 - n in
  let num := num_of (Z.pos m) e (- k) in
  let den := den_of e (- k) in
  let near := round_half_even num den in
  let down := num / den in
  let other := if near =? down then down + 1 else down in
  match fuel with
  | O => (near, k)
  | S fuel' =>
      if in_interval m e near k then (near, k)
      else if in_interval m e other k then (other, k)
      else shortest_from fuel' m e k10 (n + 1)
  end.

(** Digits [D] and exponent [k] of the shortest decimal [D * 10^k]. *)
Definition shortest (m : positive) (e : Z) : Z * Z :=
  let k10 := dec_exp 700 m e 310 in
  let '(D, k) := shortest_from 17 m e k10 1 in
  strip_zeros 20 D k.

(** [strconv.FormatFloat(x, 'f', -1, 64)]. *)
Definition FormatFloat_shortest (x : float64) : string :=
  match x with
  | S754_zero s => fmtF s 0 0
  | S754_finite s m e =>
      let '(D, k) := shortest m e in
      if 0 <=? k then fmtF s (D * 10 ^ k) 0 else fmtF s D (Z.to_nat (- k))
  | _ => special x
  end.

(** [strconv.FormatFloat(x, 'f', prec, 64)]: a negative [prec] asks for
    the shortest digits. *)
Definition FormatFloat (x : float64) (prec : Z) : string :=
  if prec <? 0 then FormatFloat_shortest x else FormatFloat_fixed x prec.

(** The [%e] layout of the shortest digits. *)
Definition fmtE (neg : bool) (D k : Z) : string :=
  let ds := FormatInt D in
  let ex := Z.of_nat (String.length ds) - 1 + k in
  (if neg then "-" else "")
  ++ GoStrings.take 1 ds
  ++ (if (1 <? String.length ds)%nat then "." ++ GoStrings.drop 1 ds else "")
  ++ "e" ++ (if ex <? 0 then "-" else "+")
  ++ (if Z.abs ex <? 10 then "0" else "") ++ FormatInt (Z.abs ex).

(** [strconv.FormatFloat(x, 'g', -1, 64)], the [%v] of a [float64]:
    [%e] when the decimal exponent is below -4 or at least 6. *)
Definition FormatFloat_g (x : float64) : string :=
  match x with
  | S754_zero s => fmtF s 0 0
  | S754_finite s m e =>
      let '(D, k) := shortest m e in
      let ex := Z.of_nat (String.length (FormatInt D)) - 1 + k in
      if (ex <? -4) || (6 <=? ex) then fmtE s D k
      else FormatFloat_shortest x
  | _ => special x
  end.

(** [strconv.FormatInt(i, base)] with its panic: [formatBits] refuses a
    base outside 2..36.  Base 10 is the one rendered here. *)
Definition FormatInt_call (i base : Z) : run string :=
  if ((base <? 2) || (36 <? base))%Z
  then Panic "strconv: illegal AppendInt/FormatInt base"
  else if (base =? 10)%Z then Done (FormatInt i)
  else Unmodelled.

(** The largest capacity [make] grants a byte slice (the runtime's
    [maxAlloc] on 64-bit Linux and Windows). *)
Definition maxAlloc : Z := 2 ^ 48.

(** The value an [int] of 64 bits holds after an operation whose exact
    result is [z]. *)
Definition int_of (z : Z) : Z := (z + 2 ^ 63) mod 2 ^ 64 - 2 ^ 63.

(** [strconv.FormatFloat(f, fmt, prec, bitSize)] with its panics: the
    call first makes a buffer of [max(prec+4, 24)] bytes, and
    [genericFtoa] refuses a [bitSize] other than 32 and 64.  Format
    ['f'] at 64 bits is the one rendered here. *)
Definition FormatFloat_call (x : float64) (fmt : ascii) (prec bitSize : Z) : run string :=
  if (maxAlloc <? Z.max (int_of (prec + 4)) 24)%Z
  then Panic "runtime error: makeslice: cap out of range"
  else if (bitSize =? 64)%Z then
    if Ascii.eqb fmt "f" then Done (FormatFloat x prec) else Unmodelled
  else if (bitSize =? 32)%Z then Unmodelled
  else Panic "strconv: illegal AppendFloat/FormatFloat bitSize".

End GoStrconv.

(* ================================================================== *)
(** ** Go's [time.Time] *)
(* ================================================================== *)

Module GoTime.

(** A [time.Time] in UTC, by what its accessors [Year], [Month], [Day],
    [Hour], [Minute], [Second] and [Nanosecond] return.  (The reader
    builds every time value in UTC.) *)
Record Time : Set := mkTime {
  Year : Z; Month : Z; Day : Z;
  Hour : Z; Minute : Z; Second : Z; Nanosecond : Z
}.

(** [time.Time{}]: January 1 of year 1, 00:00:00 UTC. *)
Definition zero : Time := mkTime 1 1 1 0 0 0 0.

(** [t.IsZero()]. *)
Definition IsZero (t : Time) : bool :=
  (Year t =? 1) && (Month t =? 1) && (Day t =? 1)
  && (Hour t =? 0) && (Minute t =? 0) && (Second t =? 0) && (Nanosecond t =? 0).

(** [appendInt]: [x] in decimal, zero-padded to [width] digits, with a
    leading minus sign when negative; widths 2 and 4 have their own fast
    paths. *)
Definition appendInt (x : Z) (width : nat) : string :=
  let u := Z.abs x in
  let ds := GoStrconv.FormatInt u in
  (if x <? 0 then "-" else "")
  ++ (if (width =? 2)%nat && (u <? 100) then GoStrconv.low_digits 2 u
      else if (width =? 4)%nat && (u <? 10000) then GoStrconv.low_digits 4 u
      else GoStrings.Repeat "0" (width - String.length ds) ++ ds).

(** What the model takes a time value to satisfy: the ranges of the
    accessors. *)
Definition wellformed (t : Time) : Prop :=
  1 <= Month t <= 12 /\ 1 <= Day t <= 31 /\ 0 <= Hour t <= 23
  /\ 0 <= Minute t <= 59 /\ 0 <= Second t <= 59 /\ 0 <= Nanosecond t < 10 ^ 9.

Definition hour12 (h : Z) : Z := if h mod 12 =? 0 then 12 else h mod 12.

(** The chunk a layout starts with: [Some (Some (k, text))] for a
    numeric chunk of [k] bytes rendered as [text], [Some None] for a
    literal byte, [None] for the chunks this model leaves out (month
    and weekday names, AM/PM, zones, fractional seconds, day of year,
    space padding). *)
Definition nextStdChunk (t : Time) (layout : string) : option (option (nat * string)) :=
  let starts p := GoStrings.HasPrefix layout p in
  if starts "Jan" || starts "Mon" || starts "MST" || starts "_2" || starts "PM"
     || starts "pm" || starts "-07" || starts "Z07" || starts "002"
     || starts ".0" || starts ".9" || starts ",0" || starts ",9"
  then None
  else if starts "2006" then Some (Some (4%nat, appendInt (Year t) 4))
  else if starts "01" then Some (Some (2%nat, appendInt (Month t) 2))
  else if starts "02" then Some (Some (2%nat, appendInt (Day t) 2))
  else if starts "03" then Some (Some (2%nat, appendInt (hour12 (Hour t)) 2))
  else if starts "04" then Some (Some (2%nat, appendInt (Minute t) 2))
  else if starts "05" then Some (Some (2%nat, appendInt (Second t) 2))
  else if starts "06" then Some (Some (2%nat, appendInt (Z.abs (Year t) mod 100) 2))
  else if starts "15" then Some (Some (2%nat, appendInt (Hour t) 2))
  else if starts "1" then Some (Some (1%nat, appendInt (Month t) 0))
  else if starts "2" then Some (Some (1%nat, appendInt (Day t) 0))
  else if starts "3" then Some (Some (1%nat, appendInt (hour12 (Hour t)) 0))
  else if starts "4" then Some (Some (1%nat, appendInt (Minute t) 0))
  else if starts "5" then Some (Some (1%nat, appendInt (Second t) 0))
  else Some None.

(** Render [layout] chunk by chunk; [fuel] bounds the chunks. *)
Fixpoint format_chunks (fuel : nat) (t : Time) (layout : string) : option string :=
  match fuel, layout with
  | _, EmptyString => Some ""
  | O, _ => None
  | S fuel', String c rest =>
      match nextStdChunk t layout with
      | None => None
      | Some None => option_map (String c) (format_chunks fuel' t rest)
      | Some (Some (k, text)) =>
          option_map (append text) (format_chunks fuel' t (GoStrings.drop k layout))
      end
  end.

(** [t.Format(layout)].  A layout with a chunk outside the model has no
    rendering here and yields the empty string; the layouts the program
    uses are inside the model. *)
Definition Format (t : Time) (layout : string) : string :=
  match format_chunks (String.length layout) t layout with
  | Some s => s
  | None => ""
  end.

Fixpoint trim_zeros_right (fuel : nat) (N : Z) (n : nat) : string :=
  match fuel with
  | O => GoStrconv.low_digits n N
  | S fuel' =>
      if (N mod 10 =? 0) && (1 <? n)%nat then trim_zeros_right fuel' (N / 10) (n - 1)
      else GoStrconv.low_digits n N
  end.

(** [t.String()], the [%v] of a time: the layout
    [2006-01-02 15:04:05.999999999 -0700 MST] in UTC. *)
Definition String_ (t : Time) : string :=
  Format t "2006-01-02 15:04:05"
  ++ (if Nanosecond t =? 0 then "" else "." ++ trim_zeros_right 9 (Nanosecond t) 9)
  ++ " +0000 UTC".

End GoTime.

(* ================================================================== *)
(** ** The go-foxpro-dbf reader, as the program sees it *)
(* ================================================================== *)

Module Dbf.
Import GoStrconv GoTime.

(** An [interface{}] field value, by its dynamic type: [nil], the five
    types the cast helpers test for, or any other type, of which only
    the [%v] rendering matters to the program. *)
Inductive value : Set :=
| VNil
| VString (s : string)
| VInt64 (i : Z)
| VFloat64 (x : float64)
| VBool (b : bool)
| VTime (t : Time)
| VOther (shown : string).

(** The cast helpers: the value when it has the asked type, the zero
    value of that type otherwise. *)
Definition ToString (v : value) : string :=
  match v with VString s => s | _ => "" end.

Definition ToTrimmedString (v : value) : string :=
  match v with VString s => GoStrings.TrimSpace s | _ => "" end.

Definition ToInt64 (v : value) : Z :=
  match v with VInt64 i => i | _ => 0 end.

Definition ToFloat64 (v : value) : float64 :=
  match v with VFloat64 x => x | _ => S754_zero false end.

Definition ToBool (v : value) : bool :=
  match v with VBool b => b | _ => false end.

Definition ToTime (v : value) : Time :=
  match v with VTime t => t | _ => GoTime.zero end.

(** A field descriptor: [FieldName()], [FieldType()], [Len], [Decimals]
    ([Len] and [Decimals] are [uint8]). *)
Record FieldHeader : Set := mkField {
  FieldName : string;
  FieldType : string;
  Len : Z;
  Decimals : Z
}.

(** A record: its deletion flag and [FieldSlice()]. *)
Record Record : Set := mkRecord {
  Deleted : bool;
  FieldSlice : list value
}.

Inductive result (A : Type) : Type :=
| Ok (a : A)
| Err (msg : string).
Arguments Ok {A} a.
Arguments Err {A} msg.

Inductive Decoder : Set := Big5Decoder | UTF8Decoder | Win1250Decoder.

(** An opened table: [NumRecords()] (a [uint32]), [Fields()] and
    [RecordAt(i)], which can fail index by index. *)
Record DBF : Type := mkDBF {
  NumRecords : Z;
  Fields : list FieldHeader;
  RecordAt : Z -> result Record
}.

Definition NumFields (d : DBF) : Z := Z.of_nat (List.length (Fields d)).
Definition FieldNames (d : DBF) : list string := List.map FieldName (Fields d).

End Dbf.

(* ================================================================== *)
(** ** The program: [cmd/dbfreader/main.go] *)
(* ================================================================== *)

Import Dbf.

(** The value a [uint32] holds after an operation whose exact result is [z]. *)
Definition uint32 (z : Z) : Z := z mod 2 ^ 32.

(** [fmt.Sprintf("%v", value)]. *)
Definition Sprintf_v (v : value) : string :=
  match v with
  | VNil => "<nil>"
  | VString s => s
  | VInt64 i => GoStrconv.FormatInt i
  | VFloat64 x => GoStrconv.FormatFloat_g x
  | VBool b => if b then "true" else "false"
  | VTime t => GoTime.String_ t
  | VOther shown => shown
  end.

(** *** [formatValueForCSV] (lines 266-310) *)

Definition formatValueForCSV (value : value) (field : FieldHeader) : string :=
  match value with
  | VNil => ""
  | _ =>
      let ty := FieldType field in
      if String.eqb ty "C" then ToTrimmedString value
      else if String.eqb ty "N" then
        if Decimals field =? 0 then GoStrconv.FormatInt (ToInt64 value)
        else GoStrconv.FormatFloat (ToFloat64 value) (Decimals field)
      else if String.eqb ty "F" then GoStrconv.FormatFloat (ToFloat64 value) (-1)
      else if String.eqb ty "L" then (if ToBool value then "true" else "false")
      else if String.eqb ty "D" then
        let t := ToTime value in
        if GoTime.IsZero t then "" else GoTime.Format t "2006-01-02"
      else if String.eqb ty "T" then
        let t := ToTime value in
        if GoTime.IsZero t then "" else GoTime.Format t "2006-01-02 15:04:05"
      else if String.eqb ty "M" then ToString value
      else if String.eqb ty "I" then GoStrconv.FormatInt (ToInt64 value)
      else if String.eqb ty "B" then GoStrconv.FormatFloat (ToFloat64 value) (-1)
      else if String.eqb ty "Y" then GoStrconv.FormatFloat (ToFloat64 value) 4
      else Sprintf_v value
  end.

(** [formatValueForCSV] once more, following the panics of the calls it
    makes: the cast helpers are comma-ok type assertions, [IsZero],
    [Format] and [Sprintf] have no panic of their own, and the two
    [strconv] functions are called with the arguments of the source.
    [int(field.Decimals)] converts a [uint8]. *)
Module Checked.

Definition formatValueForCSV (value : value) (field : FieldHeader) : run string :=
  match value with
  | VNil => Done ""
  | _ =>
      let ty := FieldType field in
      if String.eqb ty "C" then Done (ToTrimmedString value)
      else if String.eqb ty "N" then
        if Decimals field =? 0 then GoStrconv.FormatInt_call (ToInt64 value) 10
        else GoStrconv.FormatFloat_call (ToFloat64 value) "f" (Decimals field) 64
      else if String.eqb ty "F" then GoStrconv.FormatFloat_call (ToFloat64 value) "f" (-1) 64
      else if String.eqb ty "L" then Done (if ToBool value then "true" else "false")
      else if String.eqb ty "D" then
        let t := ToTime value in
        if GoTime.IsZero t then Done "" else Done (GoTime.Format t "2006-01-02")
      else if String.eqb ty "T" then
        let t := ToTime value in
        if GoTime.IsZero t then Done "" else Done (GoTime.Format t "2006-01-02 15:04:05")
      else if String.eqb ty "M" then Done (ToString value)
      else if String.eqb ty "I" then GoStrconv.FormatInt_call (ToInt64 value) 10
      else if String.eqb ty "B" then GoStrconv.FormatFloat_call (ToFloat64 value) "f" (-1) 64
      else if String.eqb ty "Y" then GoStrconv.FormatFloat_call (ToFloat64 value) "f" 4 64
      else Done (Sprintf_v value)
  end.

End Checked.

(** *** The effects of the program *)

(** What the program has done so far. *)
Record State : Type := mkState {
  stdout : list string;             (* [fmt.Print*] calls, in order *)
  logged : list string;             (* [log.Printf] and [log.Fatalf] messages *)
  opened : list (string * Decoder); (* arguments of the [dbf.OpenFile] calls *)
  created : list string;            (* arguments of the [os.Create] calls *)
  sink : list (list string);        (* rows the csv writer has accepted *)
  processedRecords : Z;             (* the [uint32] local of [exportToCSV] *)
  fetched : list Z;                 (* arguments of the [RecordAt] calls, in order *)
  unread_errors : list string       (* errors a [writer.Flush] left in the csv writer *)
}.

Definition start : State := mkState [] [] [] [] [] 0 [] [].

Definition print (msg : string) (st : State) : State :=
  mkState (stdout st ++ [msg]) (logged st) (opened st) (created st) (sink st)
    (processedRecords st) (fetched st) (unread_errors st).

Definition log (msg : string) (st : State) : State :=
  mkState (stdout st) (logged st ++ [msg]) (opened st) (created st) (sink st)
    (processedRecords st) (fetched st) (unread_errors st).

Definition open (path : string) (decoder : Decoder) (st : State) : State :=
  mkState (stdout st) (logged st) (opened st ++ [(path, decoder)]) (created st) (sink st)
    (processedRecords st) (fetched st) (unread_errors st).

Definition create (filename : string) (st : State) : State :=
  mkState (stdout st) (logged st) (opened st) (created st ++ [filename]) (sink st)
    (processedRecords st) (fetched st) (unread_errors st).

Definition fetch (i : Z) (st : State) : State :=
  mkState (stdout st) (logged st) (opened st) (created st) (sink st)
    (processedRecords st) (fetched st ++ [i]) (unread_errors st).

Definition set_sink (rows : list (list string)) (st : State) : State :=
  mkState (stdout st) (logged st) (opened st) (created st) rows
    (processedRecords st) (fetched st) (unread_errors st).

Definition set_processed (n : Z) (st : State) : State :=
  mkState (stdout st) (logged st) (opened st) (created st) (sink st) n (fetched st)
    (unread_errors st).

Definition set_unread (errs : list string) (st : State) : State :=
  mkState (stdout st) (logged st) (opened st) (created st) (sink st)
    (processedRecords st) (fetched st) errs.

(** What the program runs against: [os.Create], the csv writer's [Write]
    (which may fail depending on the rows accepted so far and the row
    offered), the csv writer's [Flush] of the rows accepted (the error
    [writer.Error()] holds afterwards, if any) and [dbf.OpenFile]. *)
Record Env : Type := mkEnv {
  create_err : string -> option string;
  write_err : list (list string) -> list string -> option string;
  flush_err : list (list string) -> option string;
  OpenFile : string -> Decoder -> result DBF
}.

(** The deferred [writer.Flush()] of line 217.  [Flush] returns nothing
    and the program never calls [writer.Error()], so the error of a
    failed flush stays in the writer, unread. *)
Definition flush (env : Env) (st : State) : State :=
  match flush_err env (sink st) with
  | Some err => set_unread (unread_errors st ++ [err]) st
  | None => st
  end.

(** How a call ends: it returns (an [error] or [nil]), it panics, or the
    model ran out of fuel. *)
Inductive outcome : Set :=
| Returned (err : option string)
| Panicked
| OutOfFuel.

(** *** [exportToCSV] (lines 203-264) *)

(** Lines 245-249: [csvRow[j] = formatValueForCSV(value, d.Fields()[j])]
    for [j, value] over [fieldSlice] from position [j] on; [None] is the
    index-out-of-range panic of [d.Fields()[j]]. *)
Fixpoint build_row (fields : list FieldHeader) (j : nat) (fieldSlice : list value)
  : option (list string) :=
  match fieldSlice with
  | [] => Some []
  | value :: rest =>
      match List.nth_error fields j with
      | None => None
      | Some field =>
          option_map (cons (formatValueForCSV value field)) (build_row fields (S j) rest)
      end
  end.

(** Lines 230-260, the body of the loop at index [i]: the new state and
    [Some o] when the function ends with [o], [None] to go on. *)
Definition export_record (env : Env) (d : DBF) (silent : bool) (totalRecords i : Z)
    (st : State) : State * option outcome :=
  let st := fetch i st in
  match RecordAt d i with
  | Err err =>
      ((if silent then st
        else log ("Error reading record " ++ GoStrconv.FormatInt i ++ ": " ++ err) st),
       None)
  | Ok record =>
      if Deleted record then (st, None)
      else
        match build_row (Fields d) 0 (FieldSlice record) with
        | None => (st, Some Panicked)
        | Some csvRow =>
            match write_err env (sink st) csvRow with
            | Some err =>
                (st, Some (Returned (Some
                   ("failed to write CSV row " ++ GoStrconv.FormatInt i ++ ": " ++ err))))
            | None =>
                let st := set_sink (sink st ++ [csvRow]) st in
                let st := set_processed (uint32 (processedRecords st + 1)) st in
                ((if negb silent && (1000 <? totalRecords)
                     && (processedRecords st mod 1000 =? 0)
                  then print ("Processed " ++ GoStrconv.FormatInt (processedRecords st)
                              ++ "/" ++ GoStrconv.FormatInt totalRecords
                              ++ " records..." ++ String "010" "") st
                  else st),
                 None)
            end
        end
  end.

(** Lines 229-261: [for i := uint32(0); i < totalRecords; i++]. *)
Fixpoint export_loop (fuel : nat) (env : Env) (d : DBF) (silent : bool)
    (totalRecords i : Z) (st : State) : State * outcome :=
  match fuel with
  | O => (st, OutOfFuel)
  | S fuel' =>
      if i <? totalRecords then
        match export_record env d silent totalRecords i st with
        | (st', Some o) => (st', o)
        | (st', None) => export_loop fuel' env d silent totalRecords (uint32 (i + 1)) st'
        end
      else (st, Returned None)
  end.

(** Lines 219-263, what [exportToCSV] runs once the file and the csv
    writer exist: the header row, then the loop. *)
Definition export_body (env : Env) (d : DBF) (silent : bool) (st : State)
  : State * outcome :=
  let fieldNames := FieldNames d in
  match write_err env (sink st) fieldNames with
  | Some err => (st, Returned (Some ("failed to write CSV header: " ++ err)))
  | None =>
      let st := set_sink (sink st ++ [fieldNames]) st in
      let totalRecords := NumRecords d in
      let st := set_processed 0 st in
      export_loop (S (Z.to_nat totalRecords)) env d silent totalRecords 0 st
  end.

(** [exportToCSV(d, filename, silent)].  Once the file is created, the
    deferred [writer.Flush()] and [file.Close()] run on every way out,
    a panic included. *)
Definition exportToCSV (env : Env) (d : DBF) (filename : string) (silent : bool)
    (st : State) : State * outcome :=
  let st := if silent then st
            else print ("Exporting to CSV: " ++ filename ++ "..." ++ String "010" "") st in
  let st := create filename st in
  match create_err env filename with
  | Some err => (st, Returned (Some ("failed to create CSV file: " ++ err)))
  | None =>
      let st := set_sink [] st in
      let (st, o) := export_body env d silent st in
      (flush env st, o)
  end.

(** *** [main] (lines 15-100) *)

(** The locals of [main] the argument loop sets. *)
Record Locals : Set := mkLocals {
  dbfFile : string;
  encoding : string;
  csvOutput : string;
  noDisplay : bool
}.

Definition nl : string := String "010" "".

(** Lines 37-50, the body of the argument loop for [arg := os.Args[i]]. *)
Definition parse_arg (i : Z) (arg : string) (l : Locals) : Locals :=
  if GoStrings.HasPrefix arg "--csv" then
    if String.eqb arg "--csv" then
      mkLocals (dbfFile l) (encoding l)
        (GoStrings.TrimSuffix (dbfFile l) (GoStrings.Ext (dbfFile l)) ++ ".csv")
        (noDisplay l)
    else if GoStrings.HasPrefix arg "--csv=" then
      mkLocals (dbfFile l) (encoding l) (GoStrings.TrimPrefix arg "--csv=") (noDisplay l)
    else l
  else if String.eqb arg "--no-display" then
    mkLocals (dbfFile l) (encoding l) (csvOutput l) true
  else if (i =? 2) && negb (GoStrings.HasPrefix arg "--") then
    mkLocals (dbfFile l) (GoStrings.ToLower arg) (csvOutput l) (noDisplay l)
  else l.

(** Lines 36-51: [for i := 2; i < len(os.Args); i++], over the arguments
    from position [i] on. *)
Fixpoint parse_loop (i : Z) (rest : list string) (l : Locals) : Locals :=
  match rest with
  | [] => l
  | arg :: rest' => parse_loop (i + 1) rest' (parse_arg i arg l)
  end.

(** Lines 30-51, for [len(os.Args) >= 2]. *)
Definition parse_args (Args : list string) : Locals :=
  parse_loop 2 (List.skipn 2 Args) (mkLocals (List.nth 1 Args "") "big5" "" false).

(** Lines 60-72: the decoder for [encoding]. *)
Definition choose_decoder (encoding : string) (st : State) : State * Decoder :=
  if String.eqb encoding "big5" then (st, Big5Decoder)
  else if String.eqb encoding "utf8" then (st, UTF8Decoder)
  else if String.eqb encoding "win1250" then (st, Win1250Decoder)
  else (print ("Unsupported encoding: " ++ encoding ++ ". Using win1250 as default." ++ nl) st,
        Win1250Decoder).

(** How [main] ends: the process exits with a status ([os.Exit],
    [log.Fatalf], or 0 on return), it panics, the model ran out of fuel,
    or it goes on to the console display of lines 102-200 with the opened
    table, which this model leaves out. *)
Inductive ending : Type :=
| Exit (status : Z)
| Crash
| Fuel
| Display (d : DBF).

(** Lines 17-28. *)
Definition usage : list string :=
  [ "Usage: go run main.go <DBF_FILE> [ENCODING] [OPTIONS]" ++ nl;
    "Example: go run main.go ../../testdata/TEST.DBF" ++ nl;
    "Example: go run main.go myfile.dbf big5" ++ nl;
    "Example: go run main.go myfile.dbf big5 --csv" ++ nl;
    "Supported encodings: win1250 (default), big5, utf8" ++ nl;
    "Options:" ++ nl;
    "  --csv          Export to CSV file (same name as DBF)" ++ nl;
    "  --csv=file.csv Export to specified CSV file" ++ nl;
    "  --no-display   Skip console display (useful with --csv)" ++ nl ].

(** Lines 88-100, with the table [d] open. *)
Definition export_if_requested (env : Env) (d : DBF) (l : Locals) (st : State)
  : State * ending :=
  if negb (String.eqb (csvOutput l) "") then
    match exportToCSV env d (csvOutput l) (noDisplay l) st with
    | (st, Returned (Some err)) => (log ("Error exporting to CSV: " ++ err) st, Exit 1)
    | (st, Panicked) => (st, Crash)
    | (st, OutOfFuel) => (st, Fuel)
    | (st, Returned None) =>
        if noDisplay l then (st, Exit 0)
        else (print ("Successfully exported " ++ GoStrconv.FormatInt (NumRecords d)
                     ++ " records to " ++ csvOutput l ++ nl) st,
              Display d)
    end
  else if noDisplay l then (st, Exit 0)
  else (st, Display d).

(** [main], run on [os.Args = Args], up to line 100.  The deferred
    [d.Close] changes nothing the model records. *)
Definition main (env : Env) (Args : list string) : State * ending :=
  let st := start in
  if (List.length Args <? 2)%nat then
    (List.fold_left (fun st line => print line st) usage st, Exit 1)
  else
    let l := parse_args Args in
    let st :=
      if noDisplay l then st
      else
        let st := print ("Opening DBF file: " ++ dbfFile l ++ " (encoding: "
                         ++ encoding l ++ ")" ++ nl) st in
        if negb (String.eqb (csvOutput l) "")
        then print ("Will export to CSV: " ++ csvOutput l ++ nl) st
        else st in
    let (st, decoder) := choose_decoder (encoding l) st in
    let st := open (dbfFile l) decoder st in
    match OpenFile env (dbfFile l) decoder with
    | Err err => (log ("Error opening DBF file: " ++ err) st, Exit 1)
    | Ok d =>
        let st :=
          if noDisplay l then st
          else
            let st := print ("Total records: " ++ GoStrconv.FormatInt (NumRecords d) ++ nl) st in
            let st := print ("Number of fields: " ++ GoStrconv.FormatInt (NumFields d) ++ nl) st in
            print ("Field names: [" ++ GoStrings.Join (FieldNames d) " " ++ "]" ++ nl) st in
        export_if_requested env d l st
    end.

(* ================================================================== *)
(** ** Reading the output, and sample inputs *)
(* ================================================================== *)

(** The text after the first [.] of [s], if there is one. *)
Fixpoint after_point (s : string) : option string :=
  match s with
  | EmptyString => None
  | String c s' => if GoStrings.byte_is c 46 then Some s' else after_point s'
  end.

Definition is_digit (c : ascii) : bool :=
  let n := nat_of_ascii c in ((48 <=? n) && (n <=? 57))%nat.

Fixpoint all_digits (s : string) : bool :=
  match s with
  | EmptyString => true
  | String c s' => is_digit c && all_digits s'
  end.

(** The number of digits [s] shows after its decimal point: [Some n]
    when [s] has a point followed by exactly [n] digits and nothing else. *)
Definition decimals_shown (s : string) : option nat :=
  match after_point s with
  | Some frac => if all_digits frac then Some (String.length frac) else None
  | None => None
  end.

(** The row [exportToCSV] writes for index [i]: none for a failed fetch
    or a deleted record. *)
Definition row_of (d : DBF) (i : Z) : option (list string) :=
  match RecordAt d i with
  | Err _ => None
  | Ok record =>
      if Deleted record then None else build_row (Fields d) 0 (FieldSlice record)
  end.

(** The rows for the [n] indices from [i] on, in order. *)
Fixpoint live_rows (d : DBF) (i : Z) (n : nat) : list (list string) :=
  match n with
  | O => []
  | S n' =>
      match row_of d i with
      | Some row => row :: live_rows d (i + 1) n'
      | None => live_rows d (i + 1) n'
      end
  end.

(** The [n] indices from [i] on. *)
Fixpoint indices (i : Z) (n : nat) : list Z :=
  match n with
  | O => []
  | S n' => i :: indices (i + 1) n'
  end.

(** How many of the [n] records from [i] on are fetched and deleted. *)
Fixpoint deleted_count (d : DBF) (i : Z) (n : nat) : Z :=
  match n with
  | O => 0
  | S n' =>
      (match RecordAt d i with
       | Ok record => if Deleted record then 1 else 0
       | Err _ => 0
       end) + deleted_count d (i + 1) n'
  end.

(** How many of the [n] fetches from [i] on fail. *)
Fixpoint failed_count (d : DBF) (i : Z) (n : nat) : Z :=
  match n with
  | O => 0
  | S n' =>
      (match RecordAt d i with
       | Ok _ => 0
       | Err _ => 1
       end) + failed_count d (i + 1) n'
  end.

(** The positional pairing of the data model: a fetched record has one
    value per field descriptor. *)
Definition paired (d : DBF) : Prop :=
  forall i record, RecordAt d i = Ok record ->
    List.length (FieldSlice record) = List.length (Fields d).

(** [dbf.OpenFile] succeeds, whatever the path and the decoder. *)
Definition opens (env : Env) : Prop :=
  forall path decoder, exists d, OpenFile env path decoder = Ok d.

(** The type tags [formatValueForCSV] has a case for. *)
Definition known_tags : list string := ["C"; "N"; "F"; "L"; "D"; "T"; "M"; "I"; "B"; "Y"].

(** [s] against a pattern where [d] stands for one digit and any other
    byte for itself. *)
Fixpoint matches (pat s : string) : bool :=
  match pat, s with
  | EmptyString, EmptyString => true
  | String p pat', String c s' =>
      (if Ascii.eqb p "d" then is_digit c else Ascii.eqb p c) && matches pat' s'
  | _, _ => false
  end.

(** An argument that starts with [--csv] and is neither [--csv] nor of
    the form [--csv=<path>] with a path. *)
Definition csv_noop (arg : string) : bool :=
  String.eqb arg "--csv="
  || (GoStrings.HasPrefix arg "--csv" && negb (String.eqb arg "--csv")
      && negb (GoStrings.HasPrefix arg "--csv=")).

(** A table of three records: one deleted, one whose fetch fails, one
    live with [" Hello "] and 12.345 at scale 2. *)
Definition sample_fields : list FieldHeader :=
  [mkField "NAME" "C" 10 0; mkField "AMT" "N" 8 2].

Definition sample_dbf : DBF :=
  mkDBF 3 sample_fields
    (fun i =>
       if i =? 0 then Ok (mkRecord true [VString "gone"; VFloat64 (S754_zero false)])
       else if i =? 1 then Err "corrupt"
       else Ok (mkRecord false
                  [VString " Hello "; VFloat64 (S754_finite false 6949617174986097 (-49))])).

(** An environment where every call succeeds. *)
Definition sample_env : Env :=
  mkEnv (fun _ => None) (fun _ _ => None) (fun _ => None) (fun _ _ => Ok sample_dbf).

(** An environment whose csv writer fails once one row is in the sink. *)
Definition full_env : Env :=
  mkEnv (fun _ => None)
        (fun rows _ => if (1 <=? List.length rows)%nat then Some "disk full" else None)
        (fun _ => None)
        (fun _ _ => Ok sample_dbf).

(** An environment whose csv writer fails on every row. *)
Definition broken_env : Env :=
  mkEnv (fun _ => None) (fun _ _ => Some "disk full") (fun _ => None)
        (fun _ _ => Ok sample_dbf).

(** An environment whose csv writer accepts every row and fails to
    flush them to the file. *)
Definition lossy_env : Env :=
  mkEnv (fun _ => None) (fun _ _ => None)
        (fun _ => Some "write /dev/full: no space left on device")
        (fun _ _ => Ok sample_dbf).

(** An environment where the source does not open. *)
Definition unopenable_env : Env :=
  mkEnv (fun _ => None) (fun _ _ => None) (fun _ => None) (fun _ _ => Err "no such file").

(** An environment where the CSV file cannot be created. *)
Definition uncreatable_env : Env :=
  mkEnv (fun _ => Some "permission denied") (fun _ _ => None) (fun _ => None)
        (fun _ _ => Ok sample_dbf).

(** *** Further notions *)

(** The CSV path [main] derives from the source path for a bare [--csv]
    (line 41). *)
Definition derived_csv (dbfFile : string) : string :=
  GoStrings.TrimSuffix dbfFile (GoStrings.Ext dbfFile) ++ ".csv".

(** The same derivation on a platform whose separator test is [sep]. *)
Definition derived_csv_on (sep : ascii -> bool) (dbfFile : string) : string :=
  GoStrings.TrimSuffix dbfFile (GoStrings.Ext_on sep dbfFile) ++ ".csv".

(** The decoder lines 62-72 select for [encoding]. *)
Definition decoder_for (encoding : string) : Decoder :=
  snd (choose_decoder encoding start).

(** The warning of line 70. *)
Definition unsupported_warning (encoding : string) : string :=
  "Unsupported encoding: " ++ encoding ++ ". Using win1250 as default." ++ nl.

(** Two states that differ at most in what was printed and logged. *)
Definition same_data (a b : State) : Prop :=
  sink a = sink b /\ processedRecords a = processedRecords b
  /\ fetched a = fetched b /\ created a = created b /\ opened a = opened b.

(** Every byte of [s] is below 128. *)
Fixpoint is_ascii (s : string) : bool :=
  match s with
  | EmptyString => true
  | String c s' => (nat_of_ascii c <? 128)%nat && is_ascii s'
  end.

(** [s] with its letters [A]..[Z] in lower case, byte by byte: what
    [strings.ToLower] returns for an ASCII string. *)
Fixpoint lower_ascii (s : string) : string :=
  match s with
  | EmptyString => EmptyString
  | String c s' => String (GoStrings.lower_byte c) (lower_ascii s')
  end.

(** No byte of [s] is a dot, a slash or a backslash. *)
Fixpoint plain (s : string) : bool :=
  match s with
  | EmptyString => true
  | String c s' =>
      negb (GoStrings.IsPathSeparator_windows c) && negb (GoStrings.byte_is c 46) && plain s'
  end.

(** The encodings the switch of lines 62-72 has a case for. *)
Definition supported (encoding : string) : bool :=
  String.eqb encoding "big5" || String.eqb encoding "utf8" || String.eqb encoding "win1250".

(** What lines 53-58 print. *)
Definition opening_lines (l : Locals) : list string :=
  if noDisplay l then []
  else ("Opening DBF file: " ++ dbfFile l ++ " (encoding: " ++ encoding l ++ ")" ++ nl)
       :: (if String.eqb (csvOutput l) "" then []
           else ["Will export to CSV: " ++ csvOutput l ++ nl]).

(** What lines 62-72 print. *)
Definition warning_lines (encoding : string) : list string :=
  if supported encoding then [] else [unsupported_warning encoding].

(** What [exportToCSV] prints first when it is not silent (line 206). *)
Definition export_banner (filename : string) : string :=
  "Exporting to CSV: " ++ filename ++ "..." ++ nl.

(** The integer a decimal string denotes, if it is one. *)
Definition read_int (s : string) : option Z :=
  option_map Z.of_int (NilZero.int_of_string s).

(** The lines [exportToCSV] logs for the failed fetches among [idxs]. *)
Fixpoint error_lines (d : DBF) (idxs : list Z) : list string :=
  match idxs with
  | [] => []
  | i :: rest =>
      match RecordAt d i with
      | Err err =>
          ("Error reading record " ++ GoStrconv.FormatInt i ++ ": " ++ err)
          :: error_lines d rest
      | Ok _ => error_lines d rest
      end
  end.



(* ================================================================== *)
(** ** Properties *)
(* ================================================================== *)

(** Case analysis on the condition of the first [if] of the goal. *)
Ltac case_if :=
  match goal with
  | |- context [if ?c then _ else _] => destruct c
  end.

(** The deferred flush touches nothing but the unread errors. *)
Lemma flush_stdout env st : stdout (flush env st) = stdout st.
Proof. unfold flush. destruct (flush_err env (sink st)); reflexivity. Qed.

Lemma flush_logged env st : logged (flush env st) = logged st.
Proof. unfold flush. destruct (flush_err env (sink st)); reflexivity. Qed.

Lemma flush_opened env st : opened (flush env st) = opened st.
Proof. unfold flush. destruct (flush_err env (sink st)); reflexivity. Qed.

Lemma flush_created env st : created (flush env st) = created st.
Proof. unfold flush. destruct (flush_err env (sink st)); reflexivity. Qed.

Lemma flush_sink env st : sink (flush env st) = sink st.
Proof. unfold flush. destruct (flush_err env (sink st)); reflexivity. Qed.

Lemma flush_processed env st : processedRecords (flush env st) = processedRecords st.
Proof. unfold flush. destruct (flush_err env (sink st)); reflexivity. Qed.

Lemma flush_fetched env st : fetched (flush env st) = fetched st.
Proof. unfold flush. destruct (flush_err env (sink st)); reflexivity. Qed.

Ltac unflush :=
  rewrite ?flush_stdout, ?flush_logged, ?flush_opened, ?flush_created, ?flush_sink,
    ?flush_processed, ?flush_fetched.

(** [exportToCSV] with its body written out: the header write, then the
    loop, each followed by the deferred flush. *)
Lemma exportToCSV_unfold env d filename silent st :
  exportToCSV env d filename silent st
  = let st0 :=
      create filename
        (if silent then st
         else print ("Exporting to CSV: " ++ filename ++ "..." ++ String "010" "") st) in
    match create_err env filename with
    | Some err => (st0, Returned (Some ("failed to create CSV file: " ++ err)))
    | None =>
        match write_err env [] (FieldNames d) with
        | Some err =>
            (flush env (set_sink [] st0),
             Returned (Some ("failed to write CSV header: " ++ err)))
        | None =>
            let r := export_loop (S (Z.to_nat (NumRecords d))) env d silent (NumRecords d) 0
                       (set_processed 0 (set_sink [FieldNames d] st0)) in
            (flush env (fst r), snd r)
        end
    end.
Proof.
  unfold exportToCSV, export_body. cbv zeta.
  destruct (create_err env filename); [reflexivity|].
  cbn [sink set_sink List.app].
  destruct (write_err env [] (FieldNames d)); [reflexivity|].
  set (r := export_loop _ _ _ _ _ _ (set_processed 0 (set_sink [FieldNames d] _))).
  transitivity (let (st1, o1) := r in (flush env st1, o1));
    [reflexivity|destruct r; reflexivity].
Qed.

(** *** The decoder [main] selects *)

Lemma choose_decoder_big5 (st : State) :
  choose_decoder "big5" st = (st, Big5Decoder).
Proof. reflexivity. Qed.

(** [exportToCSV] and the code around it leave the record of opened
    sources alone. *)
Lemma export_record_opened env d silent total i st :
  opened (fst (export_record env d silent total i st)) = opened st.
Proof.
  unfold export_record.
  destruct (RecordAt d i) as [record|err].
  - destruct (Deleted record); [reflexivity|].
    destruct (build_row _ _ _) as [row|]; [|reflexivity].
    simpl. destruct (write_err env _ row); [reflexivity|].
    case_if; reflexivity.
  - destruct silent; reflexivity.
Qed.

Lemma export_loop_opened fuel env d silent total :
  forall i st, opened (fst (export_loop fuel env d silent total i st)) = opened st.
Proof.
  induction fuel as [|fuel IH]; intros i st; simpl; [reflexivity|].
  destruct (i <? total); [|reflexivity].
  pose proof (export_record_opened env d silent total i st) as H.
  destruct (export_record env d silent total i st) as [st' [o|]]; simpl in *.
  - exact H.
  - rewrite IH. exact H.
Qed.

Lemma export_body_opened env d silent st :
  opened (fst (export_body env d silent st)) = opened st.
Proof.
  unfold export_body.
  destruct (write_err env _ _); [reflexivity|].
  rewrite export_loop_opened. reflexivity.
Qed.

(** Name the result of the body inside [exportToCSV], with what the
    lemma [L] says of it. *)
Ltac with_export_body L :=
  match goal with
  | |- context [export_body ?e ?d ?q ?s0] =>
      let H := fresh "Hbody" in
      pose proof (L e d q s0) as H;
      destruct (export_body e d q s0) as [? ?];
      cbn [fst snd] in H |- *
  end.

Lemma exportToCSV_opened env d filename silent st :
  opened (fst (exportToCSV env d filename silent st)) = opened st.
Proof.
  unfold exportToCSV.
  destruct (create_err env filename); [destruct silent; reflexivity|].
  with_export_body export_body_opened.
  rewrite flush_opened, Hbody. destruct silent; reflexivity.
Qed.

Lemma export_if_requested_opened env d l st :
  opened (fst (export_if_requested env d l st)) = opened st.
Proof.
  unfold export_if_requested.
  destruct (negb (csvOutput l =? "")%string).
  - pose proof (exportToCSV_opened env d (csvOutput l) (noDisplay l) st) as H.
    destruct (exportToCSV env d (csvOutput l) (noDisplay l) st) as [st' o]; simpl in H.
    destruct o as [[err|]| |]; try destruct (noDisplay l); simpl; exact H.
  - destruct (noDisplay l); reflexivity.
Qed.

(** C1: invoked with a source path and no encoding argument, [main] opens
    the source with the Big5 decoder (the [encoding] local starts as
    [big5]), not with the win1250 decoder that the usage text and the
    README name as the default. *)
Theorem main_no_encoding_opens_with_big5 (env : Env) (prog file : string) :
  opened (fst (main env [prog; file])) = [(file, Big5Decoder)].
Proof.
  unfold main. cbn [List.length Nat.ltb Nat.leb].
  change (parse_args [prog; file]) with (mkLocals file "big5" "" false).
  cbn [noDisplay encoding dbfFile csvOutput].
  rewrite choose_decoder_big5.
  destruct (OpenFile env file Big5Decoder) as [d|err].
  - rewrite export_if_requested_opened. reflexivity.
  - reflexivity.
Qed.

(** The same on the command line [dbfreader myfile.dbf], against the
    sample environment. *)
Example main_default_decoder_sample :
  opened (fst (main sample_env ["dbfreader"; "myfile.dbf"]))
  = [("myfile.dbf", Big5Decoder)].
Proof. vm_compute. reflexivity. Qed.

(** *** Deleted records *)

(** C3: at a record whose deletion flag is set the loop body writes no
    row, logs and prints nothing, leaves the counter of written records
    as it is, and lets the loop go on. *)
Theorem deleted_record_is_skipped env d silent total i st record :
  RecordAt d i = Ok record ->
  Deleted record = true ->
  exists st',
    export_record env d silent total i st = (st', None)
    /\ sink st' = sink st
    /\ processedRecords st' = processedRecords st
    /\ logged st' = logged st
    /\ stdout st' = stdout st.
Proof.
  intros Hfetch Hdel.
  exists (fetch i st).
  unfold export_record. rewrite Hfetch, Hdel.
  repeat split; reflexivity.
Qed.

Lemma deleted_record_is_skipped_witness :
  exists st',
    export_record sample_env sample_dbf false 3 0 start = (st', None)
    /\ sink st' = sink start
    /\ processedRecords st' = processedRecords start
    /\ logged st' = logged start
    /\ stdout st' = stdout start.
Proof.
  apply (deleted_record_is_skipped sample_env sample_dbf false 3 0 start
           (mkRecord true [VString "gone"; VFloat64 (S754_zero false)]));
    reflexivity.
Defined.

(** *** Building a row *)

Lemma build_row_paired fields :
  forall values j,
    (j + List.length values <= List.length fields)%nat ->
    exists row,
      build_row fields j values = Some row
      /\ List.length row = List.length values
      /\ forall k value, List.nth_error values k = Some value ->
           exists field,
             List.nth_error fields (j + k) = Some field
             /\ List.nth_error row k = Some (formatValueForCSV value field).
Proof.
  induction values as [|v values IH]; intros j Hlen; simpl in *.
  - exists []. repeat split; try reflexivity.
    intros k value Hk. destruct k; discriminate.
  - destruct (List.nth_error fields j) as [field|] eqn:Hj.
    + destruct (IH (S j)) as (row & Hrow & Hlenrow & Hnth); [lia|].
      exists (formatValueForCSV v field :: row). rewrite Hrow. simpl.
      repeat split; [now rewrite Hlenrow|].
      intros [|k] value Hk; simpl in *.
      * injection Hk as <-. exists field. now rewrite Nat.add_0_r.
      * destruct (Hnth k value Hk) as (f & Hf & Hr).
        exists f. split; [|exact Hr].
        now replace (j + S k)%nat with (S j + k)%nat by lia.
    + apply List.nth_error_None in Hj. lia.
Qed.

(** C6: when a record has as many values as the schema has descriptors,
    building its row finds a descriptor at every position: the row is
    built, it has one string per value, and the string at position [k] is
    the value at [k] formatted with the descriptor at [k]. *)
Theorem build_row_in_range (fields : list FieldHeader) (values : list value) :
  List.length values = List.length fields ->
  exists row,
    build_row fields 0 values = Some row
    /\ List.length row = List.length values
    /\ forall k value, List.nth_error values k = Some value ->
         exists field,
           List.nth_error fields k = Some field
           /\ List.nth_error row k = Some (formatValueForCSV value field).
Proof.
  intros Hlen.
  destruct (build_row_paired fields values 0) as (row & H1 & H2 & H3); [simpl; lia|].
  exists row. repeat split; assumption.
Qed.

Lemma build_row_in_range_witness :
  exists row,
    build_row sample_fields 0 [VString " Hello "; VInt64 7] = Some row
    /\ List.length row = 2%nat
    /\ forall k value, List.nth_error [VString " Hello "; VInt64 7] k = Some value ->
         exists field,
           List.nth_error sample_fields k = Some field
           /\ List.nth_error row k = Some (formatValueForCSV value field).
Proof.
  apply (build_row_in_range sample_fields [VString " Hello "; VInt64 7]).
  reflexivity.
Defined.

(** *** The formatter never fails *)

Lemma unknown_tag_eqb (ty : string) :
  ~ List.In ty known_tags ->
  Forall (fun tag => String.eqb ty tag = false) known_tags.
Proof.
  intros Hnot.
  apply List.Forall_forall. intros tag Hin.
  apply String.eqb_neq. intros ->. exact (Hnot Hin).
Qed.

Lemma FormatInt_call_10 (i : Z) :
  GoStrconv.FormatInt_call i 10 = Done (GoStrconv.FormatInt i).
Proof. reflexivity. Qed.

Lemma FormatFloat_call_f64 (x : GoStrconv.float64) (prec : Z) :
  -4 <= prec ->
  prec + 4 <= GoStrconv.maxAlloc ->
  GoStrconv.FormatFloat_call x "f" prec 64 = Done (GoStrconv.FormatFloat x prec).
Proof.
  intros Hlow Hprec. unfold GoStrconv.FormatFloat_call.
  assert (Hint : GoStrconv.int_of (prec + 4) = prec + 4).
  { unfold GoStrconv.int_of, GoStrconv.maxAlloc in *.
    rewrite Z.mod_small by lia. lia. }
  rewrite Hint.
  destruct (Z.ltb_spec GoStrconv.maxAlloc (Z.max (prec + 4) 24)) as [Hbig|_];
    [unfold GoStrconv.maxAlloc in *; lia|reflexivity].
Qed.

(** The calls do have failing arguments: a base of 1, a bit size of 16,
    a precision beyond any buffer. *)
Example FormatInt_call_base_1 :
  GoStrconv.FormatInt_call 42 1 = Panic "strconv: illegal AppendInt/FormatInt base".
Proof. reflexivity. Qed.

Example FormatFloat_call_bitSize_16 :
  GoStrconv.FormatFloat_call (S754_zero false) "f" 2 16
  = Panic "strconv: illegal AppendFloat/FormatFloat bitSize".
Proof. reflexivity. Qed.

Example FormatFloat_call_huge_precision :
  GoStrconv.FormatFloat_call (S754_zero false) "f" (2 ^ 62) 64
  = Panic "runtime error: makeslice: cap out of range".
Proof. reflexivity. Qed.

(** C9: [formatValueForCSV] returns a string and never panics, for every
    value and every descriptor (whose [Decimals] is a [uint8]): followed
    through the panics of the calls it makes, it ends with the string
    the function computes; [nil] gives the empty string whatever the
    descriptor, and under a type tag the switch has no case for, a value
    gives its [%v] rendering. *)
Theorem formatValueForCSV_never_panics (value : value) (field : FieldHeader) :
  0 <= Decimals field < 256 ->
  Checked.formatValueForCSV value field = Done (formatValueForCSV value field)
  /\ formatValueForCSV VNil field = ""
  /\ (value <> VNil ->
      ~ List.In (FieldType field) known_tags ->
      formatValueForCSV value field = Sprintf_v value).
Proof.
  intros Hdec. split; [|split].
  - destruct value; [reflexivity|..];
      unfold Checked.formatValueForCSV, formatValueForCSV; cbv zeta;
      rewrite !FormatInt_call_10,
        !(FormatFloat_call_f64 _ (Decimals field)),
        !(FormatFloat_call_f64 _ (-1)), !(FormatFloat_call_f64 _ 4)
        by (unfold GoStrconv.maxAlloc; lia);
      repeat match goal with
             | |- (if ?c then _ else _) = Done (if ?c then _ else _) =>
                 destruct c; [try reflexivity|]
             end;
      try reflexivity.
  - reflexivity.
  - intros Hnil Htag.
    pose proof (unknown_tag_eqb _ Htag) as Hall.
    unfold known_tags in Hall.
    repeat match goal with
           | H : Forall _ (_ :: _) |- _ => inversion H; subst; clear H
           end.
    destruct value; try congruence; unfold formatValueForCSV;
      repeat match goal with H : String.eqb _ _ = false |- _ => rewrite H; clear H end;
      reflexivity.
Qed.

Lemma formatValueForCSV_never_panics_witness :
  Checked.formatValueForCSV (VInt64 42) (mkField "ID" "Q" 4 0)
  = Done (formatValueForCSV (VInt64 42) (mkField "ID" "Q" 4 0))
  /\ formatValueForCSV (VInt64 42) (mkField "ID" "Q" 4 0) = Sprintf_v (VInt64 42).
Proof.
  destruct (formatValueForCSV_never_panics (VInt64 42) (mkField "ID" "Q" 4 0))
    as (Hrun & _ & Hfallback).
  - simpl. lia.
  - split; [exact Hrun|].
    apply Hfallback.
    + discriminate.
    + simpl. intuition discriminate.
Defined.

(** *** Arguments that start with [--csv] *)

Lemma export_record_created env d silent total i st :
  created (fst (export_record env d silent total i st)) = created st.
Proof.
  unfold export_record.
  destruct (RecordAt d i) as [record|err].
  - destruct (Deleted record); [reflexivity|].
    destruct (build_row _ _ _) as [row|]; [|reflexivity].
    simpl. destruct (write_err env _ row); [reflexivity|].
    case_if; reflexivity.
  - destruct silent; reflexivity.
Qed.

Lemma export_loop_created fuel env d silent total :
  forall i st, created (fst (export_loop fuel env d silent total i st)) = created st.
Proof.
  induction fuel as [|fuel IH]; intros i st; simpl; [reflexivity|].
  destruct (i <? total); [|reflexivity].
  pose proof (export_record_created env d silent total i st) as H.
  destruct (export_record env d silent total i st) as [st' [o|]]; simpl in *.
  - exact H.
  - rewrite IH. exact H.
Qed.

(** [exportToCSV] calls [os.Create] once, on its file name. *)
Lemma exportToCSV_created env d filename silent st :
  created (fst (exportToCSV env d filename silent st)) = (created st ++ [filename])%list.
Proof.
  unfold exportToCSV.
  destruct (create_err env filename); [destruct silent; reflexivity|].
  assert (Hb : forall e t q s0,
             created (fst (export_body e t q s0)) = created s0).
  { intros e t q s0. unfold export_body.
    destruct (write_err e _ _); [reflexivity|].
    rewrite export_loop_created. reflexivity. }
  with_export_body Hb.
  rewrite flush_created, Hbody. destruct silent; reflexivity.
Qed.

Lemma export_if_requested_created env d l st :
  created (fst (export_if_requested env d l st))
  = if String.eqb (csvOutput l) "" then created st else (created st ++ [csvOutput l])%list.
Proof.
  unfold export_if_requested.
  destruct (String.eqb (csvOutput l) ""); simpl.
  - destruct (noDisplay l); reflexivity.
  - pose proof (exportToCSV_created env d (csvOutput l) (noDisplay l) st) as H.
    destruct (exportToCSV env d (csvOutput l) (noDisplay l) st) as [st' o]; simpl in H.
    destruct o as [[err|]| |]; try destruct (noDisplay l); simpl; exact H.
Qed.

Lemma choose_decoder_created encoding st :
  created (fst (choose_decoder encoding st)) = created st.
Proof.
  unfold choose_decoder.
  repeat case_if; reflexivity.
Qed.

(** With the source open, [main] creates the csv file exactly when
    [csvOutput] is not empty. *)
Lemma main_created env Args :
  (2 <= List.length Args)%nat ->
  opens env ->
  created (fst (main env Args))
  = if String.eqb (csvOutput (parse_args Args)) "" then [] else [csvOutput (parse_args Args)].
Proof.
  intros Hlen Hopen. unfold main.
  destruct (List.length Args <? 2)%nat eqn:Hlt; [apply Nat.ltb_lt in Hlt; lia|].
  set (l := parse_args Args).
  match goal with |- context [choose_decoder ?e ?s] =>
    pose proof (choose_decoder_created e s) as Hc;
    destruct (choose_decoder e s) as [st1 decoder] end.
  simpl in Hc.
  destruct (Hopen (dbfFile l) decoder) as [d Hd]. rewrite Hd.
  rewrite export_if_requested_created.
  assert (Hst1 : created st1 = []).
  { rewrite Hc. destruct (noDisplay l); [reflexivity|].
    destruct (negb (csvOutput l =? "")%string); reflexivity. }
  destruct (noDisplay l); simpl; rewrite Hst1; reflexivity.
Qed.

Lemma parse_arg_csv_noop i arg l :
  csv_noop arg = true -> csvOutput l = "" -> csvOutput (parse_arg i arg l) = "".
Proof.
  unfold csv_noop. intros H Hl.
  apply Bool.orb_true_iff in H. destruct H as [H|H].
  - apply String.eqb_eq in H. subst arg. reflexivity.
  - apply Bool.andb_true_iff in H. destruct H as [H H3].
    apply Bool.andb_true_iff in H. destruct H as [H1 H2].
    apply Bool.negb_true_iff in H2, H3.
    unfold parse_arg. rewrite H1, H2, H3. exact Hl.
Qed.

Lemma parse_arg_other i arg l :
  GoStrings.HasPrefix arg "--csv" = false -> csvOutput (parse_arg i arg l) = csvOutput l.
Proof.
  intros H. unfold parse_arg. rewrite H.
  repeat case_if; reflexivity.
Qed.

Lemma parse_loop_csv_noop rest :
  forall i l,
    Forall (fun arg => csv_noop arg = true \/ GoStrings.HasPrefix arg "--csv" = false) rest ->
    csvOutput l = "" ->
    csvOutput (parse_loop i rest l) = "".
Proof.
  induction rest as [|arg rest IH]; intros i l Hall Hl; simpl; [exact Hl|].
  inversion Hall as [|? ? Harg Hrest]; subst.
  apply IH; [exact Hrest|].
  destruct Harg as [Harg|Harg].
  - now apply parse_arg_csv_noop.
  - now rewrite parse_arg_other.
Qed.

(** C10: the argument [--csv=] sets the CSV output path to the empty
    string, and an argument that starts with [--csv] without being
    [--csv] or [--csv=<path>] leaves an empty path empty; with the source
    open, [main] attempts the export (creates the csv file) exactly when
    the final path is not empty; so when no other kind of [--csv]
    argument is given, no export is attempted. *)
Theorem csv_noop_arguments_disable_export (env : Env) (Args : list string) :
  (2 <= List.length Args)%nat ->
  opens env ->
  (forall i l, csvOutput (parse_arg i "--csv=" l) = "")
  /\ (forall i arg l,
        csv_noop arg = true -> csvOutput l = "" -> csvOutput (parse_arg i arg l) = "")
  /\ (csvOutput (parse_args Args) <> "" <-> created (fst (main env Args)) <> [])
  /\ (Forall (fun arg => csv_noop arg = true \/ GoStrings.HasPrefix arg "--csv" = false)
        (List.skipn 2 Args) ->
      csvOutput (parse_args Args) = "" /\ created (fst (main env Args)) = []).
Proof.
  intros Hlen Hopen.
  pose proof (main_created env Args Hlen Hopen) as Hmain.
  split; [reflexivity|].
  split; [intros i arg l; apply parse_arg_csv_noop|].
  split.
  - rewrite Hmain.
    destruct (String.eqb_spec (csvOutput (parse_args Args)) "") as [E|E].
    + rewrite E. split; intros H; now elim H.
    + split; intros _; [discriminate|exact E].
  - intros Hall.
    assert (E : csvOutput (parse_args Args) = "")
      by (unfold parse_args; now apply parse_loop_csv_noop).
    split; [exact E|]. rewrite Hmain, E. reflexivity.
Qed.

Lemma csv_noop_arguments_disable_export_witness :
  csvOutput (parse_args ["dbfreader"; "my.dbf"; "utf8"; "--csvx"; "--csv="]) = ""
  /\ created (fst (main sample_env ["dbfreader"; "my.dbf"; "utf8"; "--csvx"; "--csv="])) = [].
Proof.
  apply (csv_noop_arguments_disable_export sample_env
           ["dbfreader"; "my.dbf"; "utf8"; "--csvx"; "--csv="]).
  - simpl. lia.
  - intros path decoder. exists sample_dbf. reflexivity.
  - simpl.
    repeat (apply List.Forall_cons; [first [left; reflexivity | right; reflexivity]|]).
    apply List.Forall_nil.
Defined.

(** *** Numeric fields with a scale *)

Lemma after_point_uint (d : Decimal.uint) (rest : string) :
  after_point (NilEmpty.string_of_uint d ++ rest) = after_point rest.
Proof.
  induction d; simpl; auto.
Qed.

(** The decimal rendering of an integer has no point. *)
Lemma after_point_FormatInt (i : Z) (rest : string) :
  after_point (GoStrconv.FormatInt i ++ rest) = after_point rest.
Proof.
  unfold GoStrconv.FormatInt, NilZero.string_of_int, NilZero.string_of_uint.
  destruct (Z.to_int i) as [d|d]; destruct d; simpl; try reflexivity;
    apply after_point_uint.
Qed.

Lemma is_digit_digit_char (d : Z) :
  0 <= d < 10 -> is_digit (GoStrconv.digit_char d) = true.
Proof.
  intros Hd. unfold is_digit, GoStrconv.digit_char.
  rewrite Ascii.nat_ascii_embedding by lia.
  apply Bool.andb_true_iff. split; apply Nat.leb_le; lia.
Qed.

Lemma low_digits_length (n : nat) (N : Z) :
  String.length (GoStrconv.low_digits n N) = n.
Proof.
  induction n as [|n IH]; [reflexivity|].
  cbn [String.length GoStrconv.low_digits]. now rewrite IH.
Qed.

Lemma low_digits_all_digits (n : nat) (N : Z) :
  all_digits (GoStrconv.low_digits n N) = true.
Proof.
  induction n as [|n IH]; [reflexivity|].
  cbn [all_digits GoStrconv.low_digits].
  rewrite IH, is_digit_digit_char; [reflexivity|].
  apply Z.mod_pos_bound. lia.
Qed.

(** A [%f] rendering with [p > 0] shows exactly [p] decimals. *)
Lemma decimals_shown_fmtF (neg : bool) (N : Z) (p : nat) :
  (0 < p)%nat -> decimals_shown (GoStrconv.fmtF neg N p) = Some p.
Proof.
  intros Hp. destruct p as [|p]; [lia|].
  unfold decimals_shown, GoStrconv.fmtF.
  assert (E : after_point ((if neg then "-" else "")
                ++ GoStrconv.FormatInt (N / 10 ^ Z.of_nat (S p))
                ++ "." ++ GoStrconv.low_digits (S p) N)
              = Some (GoStrconv.low_digits (S p) N)).
  { destruct neg; simpl; rewrite after_point_FormatInt; reflexivity. }
  rewrite E, low_digits_all_digits, low_digits_length. reflexivity.
Qed.

Lemma decimals_shown_FormatFloat (x : GoStrconv.float64) (prec : Z) :
  0 < prec ->
  GoStrconv.is_finite x = true ->
  decimals_shown (GoStrconv.FormatFloat x prec) = Some (Z.to_nat prec).
Proof.
  intros Hprec Hfin. unfold GoStrconv.FormatFloat.
  destruct (prec <? 0) eqn:E; [apply Z.ltb_lt in E; lia|].
  destruct x; try discriminate; simpl; apply decimals_shown_fmtF; lia.
Qed.

(** C7, as amended: for a Numeric field of declared scale [s > 0] and a
    value that is not [nil] and whose [float64] reading is finite, the
    exported string has exactly [s] digits after its decimal point, [s]
    being the declared scale. *)
Theorem numeric_export_has_declared_scale (value : value) (field : FieldHeader) :
  FieldType field = "N" ->
  0 < Decimals field ->
  value <> VNil ->
  GoStrconv.is_finite (ToFloat64 value) = true ->
  formatValueForCSV value field = GoStrconv.FormatFloat (ToFloat64 value) (Decimals field)
  /\ decimals_shown (formatValueForCSV value field) = Some (Z.to_nat (Decimals field)).
Proof.
  intros Hty Hscale Hnil Hfin.
  assert (E : formatValueForCSV value field
              = GoStrconv.FormatFloat (ToFloat64 value) (Decimals field)).
  { destruct (Decimals field =? 0) eqn:E0; [apply Z.eqb_eq in E0; lia|].
    destruct value; try congruence;
      unfold formatValueForCSV; rewrite Hty, E0; reflexivity. }
  split; [exact E|].
  rewrite E. now apply decimals_shown_FormatFloat.
Qed.

Lemma numeric_export_has_declared_scale_witness :
  formatValueForCSV (VFloat64 (S754_finite false 6949617174986097 (-49)))
    (mkField "AMT" "N" 8 2)
  = GoStrconv.FormatFloat (S754_finite false 6949617174986097 (-49)) 2
  /\ decimals_shown
       (formatValueForCSV (VFloat64 (S754_finite false 6949617174986097 (-49)))
          (mkField "AMT" "N" 8 2))
     = Some 2%nat.
Proof.
  apply (numeric_export_has_declared_scale
           (VFloat64 (S754_finite false 6949617174986097 (-49)))
           (mkField "AMT" "N" 8 2)).
  - reflexivity.
  - simpl. lia.
  - discriminate.
  - reflexivity.
Defined.

(** C7, as stated, fails: a Numeric field of scale 2 holding a NaN
    exports as [NaN], with no decimals at all, and holding [nil] exports
    as the empty string. *)
Lemma numeric_export_without_decimals :
  formatValueForCSV (VFloat64 S754_nan) (mkField "AMT" "N" 8 2) = "NaN"
  /\ decimals_shown (formatValueForCSV (VFloat64 S754_nan) (mkField "AMT" "N" 8 2))
     <> Some 2%nat
  /\ decimals_shown (formatValueForCSV VNil (mkField "AMT" "N" 8 2)) <> Some 2%nat.
Proof.
  repeat split; try reflexivity; vm_compute; discriminate.
Qed.

(** The sample value 12.345 at scale 2. *)
Example numeric_export_sample :
  formatValueForCSV (VFloat64 (S754_finite false 6949617174986097 (-49)))
    (mkField "AMT" "N" 8 2) = "12.35".
Proof. vm_compute. reflexivity. Qed.

(** *** Date and DateTime fields *)

Lemma append_nil_r (s : string) : s ++ "" = s.
Proof.
  induction s as [|c s IH]; simpl; [reflexivity|now rewrite IH].
Qed.

(** The two layouts of the program, chunk by chunk. *)
Lemma Format_date (t : GoTime.Time) :
  GoTime.Format t "2006-01-02"
  = GoTime.appendInt (GoTime.Year t) 4 ++ "-" ++ GoTime.appendInt (GoTime.Month t) 2
    ++ "-" ++ GoTime.appendInt (GoTime.Day t) 2.
Proof.
  unfold GoTime.Format. cbn -[GoTime.appendInt].
  now rewrite append_nil_r.
Qed.

Lemma Format_datetime (t : GoTime.Time) :
  GoTime.Format t "2006-01-02 15:04:05"
  = GoTime.appendInt (GoTime.Year t) 4 ++ "-" ++ GoTime.appendInt (GoTime.Month t) 2
    ++ "-" ++ GoTime.appendInt (GoTime.Day t) 2 ++ " "
    ++ GoTime.appendInt (GoTime.Hour t) 2 ++ ":" ++ GoTime.appendInt (GoTime.Minute t) 2
    ++ ":" ++ GoTime.appendInt (GoTime.Second t) 2.
Proof.
  unfold GoTime.Format. cbn -[GoTime.appendInt].
  now rewrite append_nil_r.
Qed.

Lemma formatValueForCSV_D (value : value) (field : FieldHeader) :
  FieldType field = "D" ->
  formatValueForCSV value field
  = if GoTime.IsZero (ToTime value) then ""
    else GoTime.Format (ToTime value) "2006-01-02".
Proof.
  intros Hty. destruct value; unfold formatValueForCSV; rewrite ?Hty; reflexivity.
Qed.

Lemma formatValueForCSV_T (value : value) (field : FieldHeader) :
  FieldType field = "T" ->
  formatValueForCSV value field
  = if GoTime.IsZero (ToTime value) then ""
    else GoTime.Format (ToTime value) "2006-01-02 15:04:05".
Proof.
  intros Hty. destruct value; unfold formatValueForCSV; rewrite ?Hty; reflexivity.
Qed.

Lemma appendInt_2 (x : Z) :
  0 <= x < 100 -> GoTime.appendInt x 2 = GoStrconv.low_digits 2 x.
Proof.
  intros Hx. unfold GoTime.appendInt.
  destruct (x <? 0) eqn:E; [apply Z.ltb_lt in E; lia|].
  rewrite Z.abs_eq by lia.
  destruct (x <? 100) eqn:E2; [reflexivity|apply Z.ltb_ge in E2; lia].
Qed.

Lemma appendInt_4 (x : Z) :
  0 <= x < 10000 -> GoTime.appendInt x 4 = GoStrconv.low_digits 4 x.
Proof.
  intros Hx. unfold GoTime.appendInt.
  destruct (x <? 0) eqn:E; [apply Z.ltb_lt in E; lia|].
  rewrite Z.abs_eq by lia.
  destruct (x <? 10000) eqn:E2; [reflexivity|apply Z.ltb_ge in E2; lia].
Qed.

Lemma append_String (c : ascii) (s1 s2 : string) :
  String c s1 ++ s2 = String c (s1 ++ s2).
Proof. reflexivity. Qed.

Lemma matches_digits (n : nat) (N : Z) (pat s : string) :
  matches (GoStrings.Repeat "d" n ++ pat) (GoStrconv.low_digits n N ++ s) = matches pat s.
Proof.
  induction n as [|n IH]; [reflexivity|].
  cbn [GoStrings.Repeat GoStrconv.low_digits].
  rewrite ?append_String. cbn [matches].
  change (Ascii.eqb "d" "d") with true. cbv iota.
  rewrite is_digit_digit_char by (apply Z.mod_pos_bound; lia).
  exact IH.
Qed.

Lemma matches_date (y m d : Z) (pat s : string) :
  matches ("dddd-dd-dd" ++ pat)
    (GoStrconv.low_digits 4 y ++ "-" ++ GoStrconv.low_digits 2 m ++ "-"
     ++ GoStrconv.low_digits 2 d ++ s)
  = matches pat s.
Proof.
  change ("dddd-dd-dd" ++ pat)
    with (GoStrings.Repeat "d" 4 ++ "-" ++ GoStrings.Repeat "d" 2 ++ "-"
          ++ GoStrings.Repeat "d" 2 ++ pat).
  rewrite matches_digits. rewrite ?append_String. cbn [matches append].
  change (Ascii.eqb "-" "d") with false. change (Ascii.eqb "-" "-") with true.
  cbv iota. cbn [andb].
  rewrite matches_digits. rewrite ?append_String. cbn [matches append].
  change (Ascii.eqb "-" "d") with false. change (Ascii.eqb "-" "-") with true.
  cbv iota. cbn [andb].
  apply matches_digits.
Qed.

Lemma matches_clock (h m sec : Z) :
  matches " dd:dd:dd"
    (" " ++ GoStrconv.low_digits 2 h ++ ":" ++ GoStrconv.low_digits 2 m ++ ":"
     ++ GoStrconv.low_digits 2 sec)
  = true.
Proof.
  change " dd:dd:dd"
    with (" " ++ GoStrings.Repeat "d" 2 ++ ":" ++ GoStrings.Repeat "d" 2 ++ ":"
          ++ GoStrings.Repeat "d" 2 ++ "").
  rewrite ?append_String. cbn [matches append].
  change (Ascii.eqb " " "d") with false. change (Ascii.eqb " " " ") with true.
  cbv iota. cbn [andb].
  rewrite matches_digits. rewrite ?append_String. cbn [matches append].
  change (Ascii.eqb ":" "d") with false. change (Ascii.eqb ":" ":") with true.
  cbv iota. cbn [andb].
  rewrite matches_digits. rewrite ?append_String. cbn [matches append].
  change (Ascii.eqb ":" "d") with false. change (Ascii.eqb ":" ":") with true.
  cbv iota. cbn [andb].
  rewrite <- (append_nil_r (GoStrconv.low_digits 2 sec)).
  apply matches_digits.
Qed.

(** C8: a Date or DateTime field whose value reads as the zero time
    exports as the empty string; any other Date exports as year, month
    and day in the layout [2006-01-02], any other DateTime as that
    followed by hour, minute and second in the layout [15:04:05], which
    for years 0 to 9999 are strings of the shapes [dddd-dd-dd] and
    [dddd-dd-dd dd:dd:dd]. *)
Theorem date_export_form (value : value) (field : FieldHeader) :
  (FieldType field = "D" \/ FieldType field = "T" ->
   GoTime.IsZero (ToTime value) = true ->
   formatValueForCSV value field = "")
  /\ (FieldType field = "D" ->
      GoTime.IsZero (ToTime value) = false ->
      formatValueForCSV value field
      = GoTime.appendInt (GoTime.Year (ToTime value)) 4 ++ "-"
        ++ GoTime.appendInt (GoTime.Month (ToTime value)) 2 ++ "-"
        ++ GoTime.appendInt (GoTime.Day (ToTime value)) 2
      /\ (GoTime.wellformed (ToTime value) ->
          0 <= GoTime.Year (ToTime value) <= 9999 ->
          matches "dddd-dd-dd" (formatValueForCSV value field) = true))
  /\ (FieldType field = "T" ->
      GoTime.IsZero (ToTime value) = false ->
      formatValueForCSV value field
      = GoTime.appendInt (GoTime.Year (ToTime value)) 4 ++ "-"
        ++ GoTime.appendInt (GoTime.Month (ToTime value)) 2 ++ "-"
        ++ GoTime.appendInt (GoTime.Day (ToTime value)) 2 ++ " "
        ++ GoTime.appendInt (GoTime.Hour (ToTime value)) 2 ++ ":"
        ++ GoTime.appendInt (GoTime.Minute (ToTime value)) 2 ++ ":"
        ++ GoTime.appendInt (GoTime.Second (ToTime value)) 2
      /\ (GoTime.wellformed (ToTime value) ->
          0 <= GoTime.Year (ToTime value) <= 9999 ->
          matches "dddd-dd-dd dd:dd:dd" (formatValueForCSV value field) = true)).
Proof.
  split; [|split].
  - intros [Hty|Hty] Hzero.
    + rewrite (formatValueForCSV_D _ _ Hty), Hzero. reflexivity.
    + rewrite (formatValueForCSV_T _ _ Hty), Hzero. reflexivity.
  - intros Hty Hzero.
    rewrite (formatValueForCSV_D _ _ Hty), Hzero, Format_date.
    split; [reflexivity|].
    intros (Hm & Hd & _) Hy.
    rewrite appendInt_4, !appendInt_2 by lia.
    rewrite <- (append_nil_r (GoStrconv.low_digits 2 (GoTime.Day (ToTime value)))).
    rewrite <- (append_nil_r "dddd-dd-dd").
    apply matches_date.
  - intros Hty Hzero.
    rewrite (formatValueForCSV_T _ _ Hty), Hzero, Format_datetime.
    split; [reflexivity|].
    intros (Hm & Hd & Hh & Hmi & Hs & _) Hy.
    rewrite appendInt_4, !appendInt_2 by lia.
    change "dddd-dd-dd dd:dd:dd" with ("dddd-dd-dd" ++ " dd:dd:dd").
    rewrite matches_date. apply matches_clock.
Qed.

Lemma date_export_form_witness :
  formatValueForCSV VNil (mkField "DAY" "D" 8 0) = ""
  /\ formatValueForCSV (VTime (GoTime.mkTime 2024 3 9 17 5 0 0)) (mkField "DAY" "D" 8 0)
     = "2024-03-09"
  /\ matches "dddd-dd-dd dd:dd:dd"
       (formatValueForCSV (VTime (GoTime.mkTime 2024 3 9 17 5 0 0)) (mkField "AT" "T" 8 0))
     = true.
Proof.
  split; [|split].
  - apply (proj1 (date_export_form VNil (mkField "DAY" "D" 8 0)));
      [left; reflexivity|reflexivity].
  - apply (proj1 (proj1 (proj2 (date_export_form
             (VTime (GoTime.mkTime 2024 3 9 17 5 0 0)) (mkField "DAY" "D" 8 0)))
             eq_refl eq_refl)).
  - apply (proj2 (proj2 (proj2 (date_export_form
             (VTime (GoTime.mkTime 2024 3 9 17 5 0 0)) (mkField "AT" "T" 8 0)))
             eq_refl eq_refl)).
    + unfold GoTime.wellformed. simpl. lia.
    + simpl. lia.
Defined.

Example datetime_export_sample :
  formatValueForCSV (VTime (GoTime.mkTime 2024 3 9 17 5 0 0)) (mkField "AT" "T" 8 0)
  = "2024-03-09 17:05:00".
Proof. vm_compute. reflexivity. Qed.

(** *** The export loop *)

(** What one run of the loop body does at index [i]. *)
Lemma export_record_spec env d silent total i st :
  let r := export_record env d silent total i st in
  fetched (fst r) = (fetched st ++ [i])%list
  /\ match snd r with
     | None =>
         match row_of d i with
         | None =>
             sink (fst r) = sink st /\ processedRecords (fst r) = processedRecords st
         | Some row =>
             write_err env (sink st) row = None
             /\ sink (fst r) = (sink st ++ [row])%list
             /\ processedRecords (fst r) = uint32 (processedRecords st + 1)
         end
     | Some o =>
         fst r = fetch i st
         /\ ((o = Panicked
              /\ exists record, RecordAt d i = Ok record /\ Deleted record = false
                   /\ build_row (Fields d) 0 (FieldSlice record) = None)
             \/ (exists row err,
                   row_of d i = Some row
                   /\ write_err env (sink st) row = Some err
                   /\ o = Returned (Some ("failed to write CSV row "
                                          ++ GoStrconv.FormatInt i ++ ": " ++ err))))
     end.
Proof.
  unfold export_record, row_of.
  destruct (RecordAt d i) as [record|err].
  - destruct (Deleted record) eqn:Hdel; [simpl; auto|].
    destruct (build_row (Fields d) 0 (FieldSlice record)) as [row|] eqn:Hrow.
    + cbn [sink fetch].
      destruct (write_err env (sink st) row) as [err|] eqn:Hw.
      * simpl. split; [reflexivity|]. split; [reflexivity|].
        right. exists row, err. auto.
      * case_if;
          simpl; auto.
    + simpl. split; [reflexivity|]. split; [reflexivity|].
      left. split; [reflexivity|]. exists record. auto.
  - destruct silent; simpl; auto.
Qed.

(** What a run of the loop from index [i] in state [st] leaves behind:
    [m] indices were gone through completely, their rows were added to
    the sink and counted, and the run ended by reaching [totalRecords],
    by a failed write at index [i + m], or by a panic there. *)
Definition loop_post (env : Env) (d : DBF) (total i : Z) (st st' : State) (o : outcome)
  : Prop :=
  exists m : nat,
    Z.of_nat m <= total - i
    /\ sink st' = (sink st ++ live_rows d i m)%list
    /\ processedRecords st' = processedRecords st + Z.of_nat (List.length (live_rows d i m))
    /\ match o with
       | Returned None =>
           Z.of_nat m = total - i
           /\ fetched st' = (fetched st ++ indices i m)%list
       | Returned (Some msg) =>
           Z.of_nat m < total - i
           /\ fetched st' = (fetched st ++ indices i (S m))%list
           /\ exists row err,
                row_of d (i + Z.of_nat m) = Some row
                /\ write_err env (sink st') row = Some err
                /\ msg = "failed to write CSV row "
                         ++ GoStrconv.FormatInt (i + Z.of_nat m) ++ ": " ++ err
       | Panicked =>
           Z.of_nat m < total - i
           /\ fetched st' = (fetched st ++ indices i (S m))%list
           /\ exists record,
                RecordAt d (i + Z.of_nat m) = Ok record
                /\ Deleted record = false
                /\ build_row (Fields d) 0 (FieldSlice record) = None
       | OutOfFuel => False
       end.

Lemma live_rows_length_le d : forall n i, (List.length (live_rows d i n) <= n)%nat.
Proof.
  induction n as [|n IH]; intros i; simpl; [lia|].
  destruct (row_of d i); simpl; specialize (IH (i + 1)); lia.
Qed.

Lemma indices_cons i n : (i :: indices (i + 1) n = indices i (S n))%list.
Proof. reflexivity. Qed.

(** The loop, given fuel for the indices left, ends as [loop_post] says;
    the counter does not wrap around. *)
Lemma export_loop_post env d silent total :
  forall fuel i st st' o,
    0 <= i <= total ->
    total < 2 ^ 32 ->
    (Z.to_nat (total - i) < fuel)%nat ->
    0 <= processedRecords st ->
    processedRecords st + (total - i) < 2 ^ 32 ->
    export_loop fuel env d silent total i st = (st', o) ->
    loop_post env d total i st st' o.
Proof.
  induction fuel as [|fuel IH]; intros i st st' o Hi Htot Hfuel Hp0 Hp Hrun; [lia|].
  simpl in Hrun.
  destruct (i <? total) eqn:Hlt.
  - apply Z.ltb_lt in Hlt.
    pose proof (export_record_spec env d silent total i st) as Hrec.
    destruct (export_record env d silent total i st) as [st1 [o1|]];
      cbn [fst snd] in Hrec; destruct Hrec as [Hf Hrec].
    + injection Hrun as <- <-.
      destruct Hrec as [-> Hrec].
      exists 0%nat. cbn [live_rows List.length Z.of_nat fetch sink processedRecords fetched].
      rewrite List.app_nil_r, !Z.add_0_r.
      split; [lia|]. split; [reflexivity|]. split; [reflexivity|].
      destruct Hrec as [[-> Hrec]|(row & err & Hrow & Hw & ->)].
      * split; [lia|]. split; [reflexivity|exact Hrec].
      * split; [lia|]. split; [reflexivity|]. exists row, err. auto.
    + assert (Hnext : uint32 (i + 1) = i + 1)
        by (unfold uint32; apply Z.mod_small; lia).
      rewrite Hnext in Hrun.
      assert (Hst1 : sink st1 = (sink st ++ live_rows d i 1)%list
                     /\ processedRecords st1
                        = processedRecords st + Z.of_nat (List.length (live_rows d i 1))).
      { cbn [live_rows]. destruct (row_of d i) as [row|].
        - destruct Hrec as (_ & Hs & Hc). split; [exact Hs|].
          rewrite Hc. unfold uint32. rewrite Z.mod_small by lia. reflexivity.
        - destruct Hrec as (Hs & Hc). rewrite List.app_nil_r. simpl. split; [exact Hs|lia]. }
      destruct Hst1 as [Hs1 Hc1].
      pose proof (live_rows_length_le d 1 i) as Hle1.
      apply IH in Hrun; [|lia|lia|lia|lia|lia].
      destruct Hrun as (m & Hm & Hs & Hc & Ho).
      exists (S m).
      assert (Hrows : live_rows d i (S m)
                      = (live_rows d i 1 ++ live_rows d (i + 1) m)%list)
        by (cbn [live_rows]; destruct (row_of d i); reflexivity).
      split; [lia|].
      split; [rewrite Hs, Hs1, Hrows, List.app_assoc; reflexivity|].
      split; [rewrite Hc, Hc1, Hrows, List.length_app; lia|].
      replace (i + Z.of_nat (S m)) with (i + 1 + Z.of_nat m) by lia.
      destruct o as [[msg|]| |]; try exact Ho.
      * destruct Ho as (Hlt' & Hfe & Hex). split; [lia|]. split; [|exact Hex].
        rewrite Hfe, Hf, <- List.app_assoc. reflexivity.
      * destruct Ho as (Heq & Hfe). split; [lia|].
        rewrite Hfe, Hf, <- List.app_assoc. reflexivity.
      * destruct Ho as (Hlt' & Hfe & Hex). split; [lia|]. split; [|exact Hex].
        rewrite Hfe, Hf, <- List.app_assoc. reflexivity.
  - apply Z.ltb_ge in Hlt. injection Hrun as <- <-.
    exists 0%nat. simpl. rewrite !List.app_nil_r.
    repeat split; lia.
Qed.

(** [exportToCSV], once the file is created and the header accepted, is
    the loop run from index 0 on a sink holding the header. *)
Lemma exportToCSV_post env d filename silent st st' o :
  0 <= NumRecords d < 2 ^ 32 ->
  create_err env filename = None ->
  write_err env [] (FieldNames d) = None ->
  exportToCSV env d filename silent st = (st', o) ->
  loop_post env d (NumRecords d) 0 (set_processed 0 (set_sink [FieldNames d] st)) st' o.
Proof.
  intros Hn Hc Hw Hrun. unfold exportToCSV in Hrun.
  rewrite Hc in Hrun. unfold export_body in Hrun.
  cbn [sink set_sink List.app] in Hrun. rewrite Hw in Hrun.
  match type of Hrun with
  | (let (_, _) := ?run in _) = _ => destruct run as [st1 o1] eqn:Hloop
  end.
  injection Hrun as <- <-.
  apply export_loop_post in Hloop;
    cbn [processedRecords set_processed]; rewrite ?Z.sub_0_r; try lia.
  assert (Hpost : loop_post env d (NumRecords d) 0
                    (set_processed 0 (set_sink [FieldNames d] st)) st1 o1)
    by (destruct silent; exact Hloop).
  destruct Hpost as (m & Hm & Hs & Hp & Ho).
  exists m. unfold loop_post. unflush.
  repeat split; try assumption.
Qed.

(** Under the positional pairing every index gives a row, is deleted,
    or fails. *)
Lemma live_count d :
  paired d ->
  forall n i,
    Z.of_nat (List.length (live_rows d i n))
    = Z.of_nat n - deleted_count d i n - failed_count d i n.
Proof.
  intros Hpaired.
  induction n as [|n IH]; intros i; [reflexivity|].
  cbn [live_rows deleted_count failed_count]. unfold row_of.
  specialize (IH (i + 1)).
  destruct (RecordAt d i) as [record|err] eqn:Hrec.
  - destruct (Deleted record); [lia|].
    destruct (build_row_paired (Fields d) (FieldSlice record) 0) as (row & Hrow & _);
      [rewrite (Hpaired i record Hrec); simpl; lia|].
    rewrite Hrow. cbn [List.length]. lia.
  - lia.
Qed.

Lemma failed_count_one d k :
  (exists err, RecordAt d k = Err err) ->
  forall n i,
    (forall j, i <= j < i + Z.of_nat n -> j <> k -> exists record, RecordAt d j = Ok record) ->
    failed_count d i n = if (i <=? k) && (k <? i + Z.of_nat n) then 1 else 0.
Proof.
  intros [err Hk].
  induction n as [|n IH]; intros i Hothers.
  - simpl. destruct (i <=? k) eqn:E1, (k <? i + 0) eqn:E2; try reflexivity.
    apply Z.leb_le in E1. apply Z.ltb_lt in E2. lia.
  - cbn [failed_count].
    rewrite IH by (intros j Hj Hjk; apply Hothers; lia).
    destruct (Z.eq_dec i k) as [->|Hik].
    + rewrite Hk.
      destruct (k + 1 <=? k) eqn:E1; [apply Z.leb_le in E1; lia|].
      destruct (k <=? k) eqn:E2; [|apply Z.leb_gt in E2; lia].
      destruct (k <? k + Z.of_nat (S n)) eqn:E3; [|apply Z.ltb_ge in E3; lia].
      reflexivity.
    + destruct (Hothers i) as [record Hrec]; [lia|exact Hik|]. rewrite Hrec.
      destruct (i + 1 <=? k) eqn:E1, (k <? i + 1 + Z.of_nat n) eqn:E2,
               (i <=? k) eqn:E3, (k <? i + Z.of_nat (S n)) eqn:E4;
        try reflexivity;
        repeat match goal with
               | H : (_ <=? _) = true |- _ => apply Z.leb_le in H
               | H : (_ <=? _) = false |- _ => apply Z.leb_gt in H
               | H : (_ <? _) = true |- _ => apply Z.ltb_lt in H
               | H : (_ <? _) = false |- _ => apply Z.ltb_ge in H
               end; lia.
Qed.

(** *** The count of rows written *)

(** C2, as amended: [exportToCSV] returns an optional error and no
    count.  Once the file is created and the header accepted, its local
    counter [processedRecords] ends, on every way out, equal to the number
    of data rows in the sink; when it returns [nil] these are the rows of
    the records that were fetched and not deleted, in index order. *)
Theorem export_counter_counts_rows_written env d filename silent st st' o :
  0 <= NumRecords d < 2 ^ 32 ->
  create_err env filename = None ->
  write_err env [] (FieldNames d) = None ->
  exportToCSV env d filename silent st = (st', o) ->
  o <> OutOfFuel
  /\ exists rows,
       sink st' = FieldNames d :: rows
       /\ processedRecords st' = Z.of_nat (List.length rows)
       /\ (o = Returned None -> rows = live_rows d 0 (Z.to_nat (NumRecords d))).
Proof.
  intros Hn Hc Hw Hrun.
  destruct (exportToCSV_post env d filename silent st st' o Hn Hc Hw Hrun)
    as (m & Hm & Hs & Hp & Ho).
  cbn [sink set_sink set_processed processedRecords List.app] in Hs, Hp.
  split.
  - intros ->. exact Ho.
  - exists (live_rows d 0 m). split; [exact Hs|]. split; [exact Hp|].
    intros ->. destruct Ho as [Heq _].
    replace (Z.to_nat (NumRecords d)) with m by lia. reflexivity.
Qed.

Lemma export_counter_counts_rows_written_witness :
  Returned None <> OutOfFuel
  /\ exists rows,
       sink (fst (exportToCSV sample_env sample_dbf "my.csv" true start))
       = FieldNames sample_dbf :: rows
       /\ processedRecords (fst (exportToCSV sample_env sample_dbf "my.csv" true start))
          = Z.of_nat (List.length rows)
       /\ (Returned None = Returned None -> rows = live_rows sample_dbf 0 3).
Proof.
  apply (export_counter_counts_rows_written sample_env sample_dbf "my.csv" true start
           (fst (exportToCSV sample_env sample_dbf "my.csv" true start))
           (Returned None)).
  - simpl. lia.
  - reflexivity.
  - reflexivity.
  - vm_compute. reflexivity.
Defined.

(** C2, as stated, fails: on the sample table (one deleted record, one
    failed fetch, one live record) the export returns [nil] having written
    one data row, and [main] then reports 3 records, the table's record
    count. *)
Lemma export_report_is_record_count :
  snd (exportToCSV sample_env sample_dbf "my.csv" false start) = Returned None
  /\ sink (fst (main sample_env ["dbfreader"; "my.dbf"; "--csv"]))
     = [["NAME"; "AMT"]; ["Hello"; "12.35"]]
  /\ processedRecords (fst (main sample_env ["dbfreader"; "my.dbf"; "--csv"])) = 1
  /\ List.last (stdout (fst (main sample_env ["dbfreader"; "my.dbf"; "--csv"]))) ""
     = "Successfully exported 3 records to my.csv" ++ nl
  /\ NumRecords sample_dbf
     <> processedRecords (fst (main sample_env ["dbfreader"; "my.dbf"; "--csv"])).
Proof.
  repeat split; try (vm_compute; reflexivity).
  vm_compute. discriminate.
Qed.

(** *** One failed fetch *)

(** C4: when the fetch at index [k] fails, every other fetch succeeds
    and no sink operation fails, [exportToCSV] returns [nil]; it has gone
    through every index, the sink holds the header and the rows of the
    records not deleted, none for index [k], and the number of data rows
    (and the counter) is [totalRecords - 1] less the deleted records. *)
Theorem one_failed_fetch_is_tolerated env d filename silent st k :
  0 <= NumRecords d < 2 ^ 32 ->
  paired d ->
  create_err env filename = None ->
  (forall rows row, write_err env rows row = None) ->
  0 <= k < NumRecords d ->
  (exists err, RecordAt d k = Err err) ->
  (forall i, 0 <= i < NumRecords d -> i <> k -> exists record, RecordAt d i = Ok record) ->
  exists st',
    exportToCSV env d filename silent st = (st', Returned None)
    /\ fetched st' = (fetched st ++ indices 0 (Z.to_nat (NumRecords d)))%list
    /\ sink st' = FieldNames d :: live_rows d 0 (Z.to_nat (NumRecords d))
    /\ row_of d k = None
    /\ Z.of_nat (List.length (sink st')) - 1
       = NumRecords d - 1 - deleted_count d 0 (Z.to_nat (NumRecords d))
    /\ processedRecords st'
       = NumRecords d - 1 - deleted_count d 0 (Z.to_nat (NumRecords d)).
Proof.
  intros Hn Hpaired Hc Hw Hk Hfail Hothers.
  destruct (exportToCSV env d filename silent st) as [st' o] eqn:Hrun.
  destruct (exportToCSV_post env d filename silent st st' o Hn Hc (Hw _ _) Hrun)
    as (m & Hm & Hs & Hp & Ho).
  cbn [sink set_sink set_processed processedRecords fetched List.app] in Hs, Hp, Ho.
  assert (Hcount : Z.of_nat (List.length (live_rows d 0 (Z.to_nat (NumRecords d))))
                   = NumRecords d - 1 - deleted_count d 0 (Z.to_nat (NumRecords d))).
  { rewrite (live_count d Hpaired).
    rewrite (failed_count_one d k Hfail)
      by (intros j Hj Hjk; apply Hothers; [lia|exact Hjk]).
    destruct (0 <=? k) eqn:E1; [|apply Z.leb_gt in E1; lia].
    destruct (k <? 0 + Z.of_nat (Z.to_nat (NumRecords d))) eqn:E2;
      [|apply Z.ltb_ge in E2; lia].
    simpl. lia. }
  destruct o as [[msg|]| |].
  - destruct Ho as (_ & _ & row & err & _ & Hbad & _). rewrite Hw in Hbad. discriminate.
  - destruct Ho as [Heq Hfe].
    assert (Hm' : m = Z.to_nat (NumRecords d)) by lia. subst m.
    exists st'. split; [reflexivity|]. split; [exact Hfe|]. split; [exact Hs|].
    split; [unfold row_of; destruct Hfail as [err ->]; reflexivity|].
    split; [rewrite Hs; cbn [List.length]; lia|lia].
  - destruct Ho as (_ & _ & record & Hrec & _ & Hrow).
    destruct (build_row_paired (Fields d) (FieldSlice record) 0) as (row & Hrow' & _);
      [rewrite (Hpaired _ _ Hrec); simpl; lia|].
    congruence.
  - contradiction.
Qed.

Lemma sample_dbf_paired : paired sample_dbf.
Proof.
  intros i record H. unfold sample_dbf in H. cbn [RecordAt Fields] in *.
  destruct (i =? 0); [injection H as <-; reflexivity|].
  destruct (i =? 1); [discriminate|injection H as <-; reflexivity].
Qed.

Lemma one_failed_fetch_is_tolerated_witness :
  exists st',
    exportToCSV sample_env sample_dbf "my.csv" true start = (st', Returned None)
    /\ fetched st' = (fetched start ++ indices 0 (Z.to_nat (NumRecords sample_dbf)))%list
    /\ sink st' = FieldNames sample_dbf :: live_rows sample_dbf 0 (Z.to_nat (NumRecords sample_dbf))
    /\ row_of sample_dbf 1 = None
    /\ Z.of_nat (List.length (sink st')) - 1
       = NumRecords sample_dbf - 1
         - deleted_count sample_dbf 0 (Z.to_nat (NumRecords sample_dbf))
    /\ processedRecords st'
       = NumRecords sample_dbf - 1
         - deleted_count sample_dbf 0 (Z.to_nat (NumRecords sample_dbf)).
Proof.
  apply (one_failed_fetch_is_tolerated sample_env sample_dbf "my.csv" true start 1).
  - simpl. lia.
  - exact sample_dbf_paired.
  - reflexivity.
  - reflexivity.
  - simpl. lia.
  - exists "corrupt". reflexivity.
  - intros i Hi Hik. simpl in Hi.
    assert (E : i = 0 \/ i = 2) by lia.
    destruct E as [-> | ->]; eexists; reflexivity.
Defined.

(** The sample export, run: one data row for three records. *)
Example sample_export :
  sink (fst (exportToCSV sample_env sample_dbf "my.csv" true start))
  = [["NAME"; "AMT"]; ["Hello"; "12.35"]].
Proof. vm_compute. reflexivity. Qed.

(** With one value per descriptor in every record and no failing sink
    operation the export returns [nil] with the header and every live
    row in the sink. *)
Lemma exportToCSV_nil env d filename silent st :
  0 <= NumRecords d < 2 ^ 32 ->
  paired d ->
  create_err env filename = None ->
  (forall rows row, write_err env rows row = None) ->
  exists st',
    exportToCSV env d filename silent st = (st', Returned None)
    /\ sink st' = FieldNames d :: live_rows d 0 (Z.to_nat (NumRecords d))
    /\ processedRecords st'
       = Z.of_nat (List.length (live_rows d 0 (Z.to_nat (NumRecords d)))).
Proof.
  intros Hn Hpaired Hc Hw.
  destruct (exportToCSV env d filename silent st) as [st' o] eqn:Hrun.
  destruct (exportToCSV_post env d filename silent st st' o Hn Hc (Hw _ _) Hrun)
    as (m & Hm & Hs & Hp & Ho).
  cbn [sink set_sink set_processed processedRecords fetched List.app] in Hs, Hp, Ho.
  destruct o as [[msg|]| |].
  - destruct Ho as (_ & _ & row & err & _ & Hbad & _). rewrite Hw in Hbad. discriminate.
  - destruct Ho as [Heq _].
    assert (Hm' : m = Z.to_nat (NumRecords d)) by lia. subst m.
    exists st'. split; [reflexivity|]. split; [exact Hs|exact Hp].
  - destruct Ho as (_ & _ & record & Hrec & _ & Hrow).
    destruct (build_row_paired (Fields d) (FieldSlice record) 0) as (row & Hrow' & _);
      [rewrite (Hpaired _ _ Hrec); simpl; lia|].
    congruence.
  - contradiction.
Qed.

(** *** Failed writes *)

(** The errors a flush leaves in the csv writer are touched by nothing
    else in the export. *)
Lemma export_record_unread env d silent total i st :
  unread_errors (fst (export_record env d silent total i st)) = unread_errors st.
Proof.
  unfold export_record.
  destruct (RecordAt d i) as [record|err].
  - destruct (Deleted record); [reflexivity|].
    destruct (build_row _ _ _) as [row|]; [|reflexivity].
    simpl. destruct (write_err env _ row); [reflexivity|].
    case_if; reflexivity.
  - destruct silent; reflexivity.
Qed.

Lemma export_loop_unread fuel env d silent total :
  forall i st,
    unread_errors (fst (export_loop fuel env d silent total i st)) = unread_errors st.
Proof.
  induction fuel as [|fuel IH]; intros i st; simpl; [reflexivity|].
  destruct (i <? total); [|reflexivity].
  pose proof (export_record_unread env d silent total i st) as H.
  destruct (export_record env d silent total i st) as [st' [o|]]; simpl in *.
  - exact H.
  - rewrite IH. exact H.
Qed.

Lemma export_body_unread env d silent st :
  unread_errors (fst (export_body env d silent st)) = unread_errors st.
Proof.
  unfold export_body.
  destruct (write_err env _ _); [reflexivity|].
  rewrite export_loop_unread. reflexivity.
Qed.

(** The loop, started at [i] with every write before index [i + m]
    accepted, stops at the write refused at [i + m]. *)
Lemma export_loop_failed_write env d silent total :
  paired d ->
  total < 2 ^ 32 ->
  forall (m fuel : nat) i st row err,
    0 <= i ->
    i + Z.of_nat m < total ->
    (m < fuel)%nat ->
    (forall (k : nat) r, (k < m)%nat ->
        row_of d (i + Z.of_nat k) = Some r ->
        write_err env (sink st ++ live_rows d i k)%list r = None) ->
    row_of d (i + Z.of_nat m) = Some row ->
    write_err env (sink st ++ live_rows d i m)%list row = Some err ->
    exists st',
      export_loop fuel env d silent total i st
      = (st', Returned (Some ("failed to write CSV row "
                              ++ GoStrconv.FormatInt (i + Z.of_nat m) ++ ": " ++ err)))
      /\ sink st' = (sink st ++ live_rows d i m)%list
      /\ fetched st' = (fetched st ++ indices i (S m))%list.
Proof.
  intros Hpaired Htot.
  induction m as [|m IH]; intros fuel i st row err Hi Hlt Hfuel Hok Hrow Hbad;
    (destruct fuel as [|fuel]; [lia|]);
    cbn [export_loop];
    (assert (Hlt' : (i <? total) = true) by (apply Z.ltb_lt; lia));
    rewrite Hlt';
    pose proof (export_record_spec env d silent total i st) as Hrec;
    destruct (export_record env d silent total i st) as [st1 [o1|]];
    cbn [fst snd] in Hrec; destruct Hrec as [Hf Hrec].
  - cbn [Z.of_nat] in Hrow |- *. rewrite Z.add_0_r in Hrow |- *.
    cbn [live_rows] in Hbad |- *. rewrite List.app_nil_r in Hbad |- *.
    destruct Hrec as [-> [[_ (record & Hr & Hd & Hb)] | (row' & err' & Hrow' & Hw' & ->)]].
    + unfold row_of in Hrow. rewrite Hr, Hd, Hb in Hrow. discriminate.
    + rewrite Hrow in Hrow'. injection Hrow' as <-.
      rewrite Hbad in Hw'. injection Hw' as <-.
      eexists. split; [reflexivity|]. split; reflexivity.
  - cbn [Z.of_nat] in Hrow. rewrite Z.add_0_r in Hrow.
    cbn [live_rows] in Hbad. rewrite List.app_nil_r in Hbad.
    rewrite Hrow in Hrec. destruct Hrec as (Hw & _). congruence.
  - exfalso.
    destruct Hrec as [_ [[_ (record & Hr & Hd & Hb)] | (row' & err' & Hrow' & Hw' & _)]].
    + destruct (build_row_paired (Fields d) (FieldSlice record) 0) as (r & Hr' & _);
        [rewrite (Hpaired _ _ Hr); simpl; lia|].
      congruence.
    + specialize (Hok 0%nat row' (Nat.lt_0_succ m)).
      cbn [Z.of_nat live_rows] in Hok. rewrite Z.add_0_r, List.app_nil_r in Hok.
      rewrite (Hok Hrow') in Hw'. discriminate.
  - assert (Hnext : uint32 (i + 1) = i + 1)
      by (unfold uint32; apply Z.mod_small; lia).
    rewrite Hnext.
    assert (Hs1 : sink st1 = (sink st ++ live_rows d i 1)%list).
    { cbn [live_rows]. destruct (row_of d i) as [r|].
      - destruct Hrec as (_ & Hs & _). exact Hs.
      - destruct Hrec as (Hs & _). rewrite List.app_nil_r. exact Hs. }
    assert (Hsplit : forall k,
               live_rows d i (S k) = (live_rows d i 1 ++ live_rows d (i + 1) k)%list)
      by (intros k; cbn [live_rows]; destruct (row_of d i); reflexivity).
    assert (Hidx : forall k : nat, i + Z.of_nat (S k) = i + 1 + Z.of_nat k)
      by (intros k; lia).
    rewrite Hidx in Hrow, Hlt |- *.
    destruct (IH fuel (i + 1) st1 row err) as (st' & Hrun & Hs & Hfe);
      [lia|lia|lia| |exact Hrow| |].
    + intros k r Hk Hr.
      rewrite Hs1, <- List.app_assoc, <- Hsplit.
      apply Hok; [lia|]. rewrite Hidx. exact Hr.
    + rewrite Hs1, <- List.app_assoc, <- Hsplit. exact Hbad.
    + exists st'. split; [exact Hrun|].
      split.
      * rewrite Hs, Hs1, <- List.app_assoc, <- Hsplit. reflexivity.
      * rewrite Hfe, Hf, <- List.app_assoc. reflexivity.
Qed.

(** C5: a write that fails when the rows reach the file is not
    propagated.  The rows go through a csv writer that [exportToCSV]
    flushes on its way out; when every [writer.Write] is accepted and
    the flush fails, [exportToCSV] returns [nil] and the error stays
    unread in the writer.  Run on the sample table with [/dev/full] as
    the csv path, [main] logs the failed fetch of record 1 and nothing
    else, and reports a successful export of the three records. *)
Theorem flush_error_is_dropped :
  (forall env d filename silent st err,
      0 <= NumRecords d < 2 ^ 32 ->
      paired d ->
      create_err env filename = None ->
      (forall rows row, write_err env rows row = None) ->
      flush_err env (FieldNames d :: live_rows d 0 (Z.to_nat (NumRecords d))) = Some err ->
      exists st',
        exportToCSV env d filename silent st = (st', Returned None)
        /\ unread_errors st' = (unread_errors st ++ [err])%list)
  /\ (let run := main lossy_env ["dbfreader"; "small.dbf"; "big5"; "--csv=/dev/full"] in
      snd run = Display sample_dbf
      /\ logged (fst run) = ["Error reading record 1: corrupt"]
      /\ created (fst run) = ["/dev/full"]
      /\ unread_errors (fst run) = ["write /dev/full: no space left on device"]
      /\ List.last (stdout (fst run)) ""
         = "Successfully exported 3 records to /dev/full" ++ nl).
Proof.
  split.
  - intros env d filename silent st err Hn Hpaired Hc Hw Hflush.
    destruct (exportToCSV_nil env d filename silent st Hn Hpaired Hc Hw)
      as (st' & Hrun & Hs & _).
    exists st'. split; [exact Hrun|].
    unfold exportToCSV in Hrun. rewrite Hc in Hrun.
    match type of Hrun with
    | context [export_body ?e ?t ?q ?s0] =>
        pose proof (export_body_unread e t q s0) as Hbody;
        destruct (export_body e t q s0) as [st1 o1]
    end.
    cbn [fst] in Hbody. injection Hrun as <- _.
    rewrite flush_sink in Hs.
    unfold flush. rewrite Hs, Hflush.
    cbn [unread_errors set_unread]. rewrite Hbody.
    destruct silent; reflexivity.
  - vm_compute. repeat split; reflexivity.
Qed.

Lemma flush_error_is_dropped_witness :
  exists st',
    exportToCSV lossy_env sample_dbf "/dev/full" true start = (st', Returned None)
    /\ unread_errors st'
       = (unread_errors start ++ ["write /dev/full: no space left on device"])%list.
Proof.
  apply (proj1 flush_error_is_dropped lossy_env sample_dbf "/dev/full" true start
           "write /dev/full: no space left on device").
  - simpl. lia.
  - exact sample_dbf_paired.
  - reflexivity.
  - reflexivity.
  - reflexivity.
Defined.

(** X21: a [writer.Write] that fails does end the export: when the header is
    refused [exportToCSV] returns that error at once, with nothing in
    the sink and no record fetched; when the writes before index [m] are
    accepted and the row of the record at [m] is refused, it returns
    that error, the sink holds the header and the rows accepted before,
    and no index after [m] is fetched. *)
Theorem failed_write_ends_the_export :
  (forall env d filename silent st err,
      create_err env filename = None ->
      write_err env [] (FieldNames d) = Some err ->
      exists st',
        exportToCSV env d filename silent st
        = (st', Returned (Some ("failed to write CSV header: " ++ err)))
        /\ sink st' = [] /\ fetched st' = fetched st)
  /\ (forall env d filename silent st (m : nat) row err,
        0 <= NumRecords d < 2 ^ 32 ->
        paired d ->
        create_err env filename = None ->
        write_err env [] (FieldNames d) = None ->
        Z.of_nat m < NumRecords d ->
        (forall (k : nat) r, (k < m)%nat ->
            row_of d (Z.of_nat k) = Some r ->
            write_err env (FieldNames d :: live_rows d 0 k) r = None) ->
        row_of d (Z.of_nat m) = Some row ->
        write_err env (FieldNames d :: live_rows d 0 m) row = Some err ->
        exists st',
          exportToCSV env d filename silent st
          = (st', Returned (Some ("failed to write CSV row "
                                  ++ GoStrconv.FormatInt (Z.of_nat m) ++ ": " ++ err)))
          /\ sink st' = FieldNames d :: live_rows d 0 m
          /\ fetched st' = (fetched st ++ indices 0 (S m))%list).
Proof.
  split.
  - intros env d filename silent st err Hc Hw.
    unfold exportToCSV, export_body. rewrite Hc. cbn [sink set_sink]. rewrite Hw.
    eexists. split; [reflexivity|].
    unflush. destruct silent; split; reflexivity.
  - intros env d filename silent st m row err Hn Hpaired Hc Hw Hm Hok Hrow Hbad.
    unfold exportToCSV, export_body. rewrite Hc. cbn [sink set_sink List.app]. rewrite Hw.
    match goal with
    | |- context [export_loop ?fuel env d silent ?total 0 ?s0] =>
        destruct (export_loop_failed_write env d silent total Hpaired (proj2 Hn)
                    m fuel 0 s0 row err) as (st' & Hrun & Hs & Hfe);
          [lia|lia|lia|exact Hok|exact Hrow|exact Hbad|]
    end.
    rewrite Hrun. rewrite Z.add_0_l.
    eexists. split; [reflexivity|].
    unflush. rewrite Hs, Hfe.
    destruct silent; split; reflexivity.
Qed.

Lemma failed_write_ends_the_export_witness :
  (exists st',
      exportToCSV broken_env sample_dbf "my.csv" true start
      = (st', Returned (Some "failed to write CSV header: disk full"))
      /\ sink st' = [] /\ fetched st' = fetched start)
  /\ (exists st',
        exportToCSV full_env sample_dbf "my.csv" true start
        = (st', Returned (Some "failed to write CSV row 2: disk full"))
        /\ sink st' = [["NAME"; "AMT"]]
        /\ fetched st' = (fetched start ++ [0; 1; 2])%list).
Proof.
  split.
  - apply (proj1 failed_write_ends_the_export broken_env sample_dbf "my.csv" true start
             "disk full"); reflexivity.
  - apply (proj2 failed_write_ends_the_export full_env sample_dbf "my.csv" true start
             2%nat ["Hello"; "12.35"] "disk full").
    + simpl. lia.
    + exact sample_dbf_paired.
    + reflexivity.
    + reflexivity.
    + simpl. lia.
    + intros k r Hk Hr.
      assert (E : k = 0%nat \/ k = 1%nat) by lia.
      destruct E as [-> | ->]; vm_compute in Hr; discriminate Hr.
    + vm_compute. reflexivity.
    + reflexivity.
Defined.

(** The sample table against a writer that fails after the header: the
    export stops at index 2 with the header alone in the sink. *)
Example sample_export_disk_full :
  exportToCSV full_env sample_dbf "my.csv" true start
  = (mkState [] [] [] ["my.csv"] [["NAME"; "AMT"]] 0 [0; 1; 2] [],
     Returned (Some "failed to write CSV row 2: disk full")).
Proof. vm_compute. reflexivity. Qed.

(* ================================================================== *)
(** ** Further properties of the argument loop *)
(* ================================================================== *)

Lemma HasPrefix_csv_dashes (arg : string) :
  GoStrings.HasPrefix arg "--csv" = true -> GoStrings.HasPrefix arg "--" = true.
Proof.
  unfold GoStrings.HasPrefix.
  destruct arg as [|c1 [|c2 r]]; cbn [String.prefix];
    try (intros H; discriminate H).
  - destruct (ascii_dec "-" c1); intros H; discriminate H.
  - destruct (ascii_dec "-" c1); [|intros H; discriminate H].
    destruct (ascii_dec "-" c2); [intros _; destruct r; reflexivity|intros H; discriminate H].
Qed.

Lemma parse_arg_encoding (i : Z) (arg : string) (l : Locals) :
  encoding (parse_arg i arg l)
  = if (i =? 2) && negb (GoStrings.HasPrefix arg "--")
    then GoStrings.ToLower arg else encoding l.
Proof.
  unfold parse_arg.
  destruct (GoStrings.HasPrefix arg "--csv") eqn:Hcsv.
  - rewrite (HasPrefix_csv_dashes _ Hcsv), Bool.andb_false_r.
    repeat case_if; reflexivity.
  - destruct (String.eqb_spec arg "--no-display") as [->|_].
    + rewrite Bool.andb_false_r. reflexivity.
    + case_if; reflexivity.
Qed.

Lemma parse_loop_encoding (rest : list string) :
  forall i l, 2 < i -> encoding (parse_loop i rest l) = encoding l.
Proof.
  induction rest as [|arg rest IH]; intros i l Hi; simpl; [reflexivity|].
  rewrite IH by lia. rewrite parse_arg_encoding.
  destruct (i =? 2) eqn:E; [apply Z.eqb_eq in E; lia|reflexivity].
Qed.

Lemma ascii_byte_is_not (c : ascii) (n : nat) :
  (nat_of_ascii c <? 128)%nat = true -> (128 <= n)%nat -> GoStrings.byte_is c n = false.
Proof.
  intros Hc Hn. unfold GoStrings.byte_is.
  apply Nat.ltb_lt in Hc. apply Nat.eqb_neq. lia.
Qed.

(** On an ASCII string [ToLower] lower-cases byte by byte. *)
Lemma ToLower_ascii (s : string) :
  is_ascii s = true -> GoStrings.ToLower s = lower_ascii s.
Proof.
  induction s as [|c s1 IH]; [reflexivity|].
  cbn [is_ascii]. intros Hs.
  apply Bool.andb_true_iff in Hs. destruct Hs as [Hc Hs1].
  specialize (IH Hs1).
  cbn [lower_ascii]. rewrite <- IH.
  destruct s1 as [|c1 s2]; [reflexivity|].
  cbn [GoStrings.ToLower].
  rewrite (ascii_byte_is_not c 196 Hc), (ascii_byte_is_not c 226 Hc) by lia.
  cbn [andb].
  destruct s2; reflexivity.
Qed.

(** X1: the encoding is read from the argument right after the source
    path and from nowhere else, whatever follows: it is [big5] when
    there is no such argument or the argument starts with [--];
    otherwise an ASCII argument gives itself with its letters in lower
    case. *)
Theorem encoding_is_positional (prog file : string) :
  encoding (parse_args [prog; file]) = "big5"
  /\ (forall arg rest,
        GoStrings.HasPrefix arg "--" = true ->
        encoding (parse_args (prog :: file :: arg :: rest)) = "big5")
  /\ (forall arg rest,
        GoStrings.HasPrefix arg "--" = false ->
        is_ascii arg = true ->
        encoding (parse_args (prog :: file :: arg :: rest)) = lower_ascii arg).
Proof.
  split; [reflexivity|].
  split; intros arg rest Hdash;
    unfold parse_args; cbn [List.skipn List.nth parse_loop];
    rewrite parse_loop_encoding by lia;
    rewrite parse_arg_encoding, Hdash; cbn [encoding Z.eqb Pos.eqb andb negb].
  - reflexivity.
  - intros Hascii. apply ToLower_ascii. exact Hascii.
Qed.

Lemma encoding_is_positional_witness :
  encoding (parse_args ["dbfreader"; "my.dbf"; "--csv"; "utf8"]) = "big5"
  /\ encoding (parse_args ["dbfreader"; "my.dbf"; "Win1250"; "utf8"; "--csv"])
     = lower_ascii "Win1250".
Proof.
  split.
  - apply (proj1 (proj2 (encoding_is_positional "dbfreader" "my.dbf")) "--csv" ["utf8"]).
    reflexivity.
  - apply (proj2 (proj2 (encoding_is_positional "dbfreader" "my.dbf"))
             "Win1250" ["utf8"; "--csv"]); reflexivity.
Defined.

Lemma parse_arg_noDisplay (i : Z) (arg : string) (l : Locals) :
  noDisplay (parse_arg i arg l) = noDisplay l || String.eqb "--no-display" arg.
Proof.
  unfold parse_arg.
  destruct (GoStrings.HasPrefix arg "--csv") eqn:Hcsv.
  - assert (E : String.eqb "--no-display" arg = false).
    { apply String.eqb_neq. intros <-. discriminate. }
    rewrite E, Bool.orb_false_r. repeat case_if; reflexivity.
  - rewrite (String.eqb_sym "--no-display" arg).
    destruct (String.eqb arg "--no-display").
    + now rewrite Bool.orb_true_r.
    + rewrite Bool.orb_false_r. case_if; reflexivity.
Qed.

Lemma parse_loop_noDisplay (rest : list string) :
  forall i l,
    noDisplay (parse_loop i rest l)
    = noDisplay l || List.existsb (String.eqb "--no-display") rest.
Proof.
  induction rest as [|arg rest IH]; intros i l; simpl.
  - now rewrite Bool.orb_false_r.
  - rewrite IH, parse_arg_noDisplay, Bool.orb_assoc. reflexivity.
Qed.

(** X2: the console display is switched off exactly when one of the
    arguments after the source path is [--no-display], at any position. *)
Theorem no_display_anywhere (Args : list string) :
  noDisplay (parse_args Args)
  = List.existsb (String.eqb "--no-display") (List.skipn 2 Args).
Proof.
  unfold parse_args. rewrite parse_loop_noDisplay. reflexivity.
Qed.

Lemma parse_arg_dbfFile (i : Z) (arg : string) (l : Locals) :
  dbfFile (parse_arg i arg l) = dbfFile l.
Proof.
  unfold parse_arg. repeat case_if; reflexivity.
Qed.

Lemma parse_loop_dbfFile (rest : list string) :
  forall i l, dbfFile (parse_loop i rest l) = dbfFile l.
Proof.
  induction rest as [|arg rest IH]; intros i l; simpl; [reflexivity|].
  now rewrite IH, parse_arg_dbfFile.
Qed.

Lemma parse_loop_app (a b : list string) :
  forall i l,
    parse_loop i (a ++ b)%list l
    = parse_loop (i + Z.of_nat (List.length a)) b (parse_loop i a l).
Proof.
  induction a as [|x a IH]; intros i l.
  - simpl. now rewrite Z.add_0_r.
  - cbn [List.app parse_loop List.length]. rewrite IH. f_equal. lia.
Qed.

Lemma parse_loop_no_csv (rest : list string) :
  forall i l,
    Forall (fun arg => GoStrings.HasPrefix arg "--csv" = false) rest ->
    csvOutput (parse_loop i rest l) = csvOutput l.
Proof.
  induction rest as [|arg rest IH]; intros i l Hall; simpl; [reflexivity|].
  inversion Hall as [|? ? Harg Hrest]; subst.
  rewrite IH by exact Hrest. now apply parse_arg_other.
Qed.

Lemma parse_arg_csv_path (i : Z) (path : string) (l : Locals) :
  csvOutput (parse_arg i (String.append "--csv=" path) l) = path.
Proof.
  destruct path; reflexivity.
Qed.

(** X3: of several [--csv] options the last one decides, whatever comes
    before it: [--csv=<path>] gives [<path>], a bare [--csv] gives the
    path derived from the source path. *)
Theorem last_csv_option_wins (prog file path : string) (before after : list string) :
  Forall (fun arg => GoStrings.HasPrefix arg "--csv" = false) after ->
  csvOutput (parse_args (prog :: file :: before ++ String.append "--csv=" path :: after)%list) = path
  /\ csvOutput (parse_args (prog :: file :: before ++ "--csv" :: after)%list)
     = derived_csv file.
Proof.
  intros Hafter. unfold parse_args. cbn [List.skipn List.nth].
  split.
  - rewrite parse_loop_app. cbn [parse_loop].
    rewrite parse_loop_no_csv by exact Hafter. apply parse_arg_csv_path.
  - rewrite parse_loop_app. cbn [parse_loop].
    rewrite parse_loop_no_csv by exact Hafter.
    unfold parse_arg. cbn [GoStrings.HasPrefix String.prefix].
    change (GoStrings.HasPrefix "--csv" "--csv") with true.
    change (String.eqb "--csv" "--csv") with true. cbv iota. cbn [csvOutput].
    rewrite parse_loop_dbfFile. reflexivity.
Qed.

Lemma last_csv_option_wins_witness :
  csvOutput (parse_args ["dbfreader"; "my.dbf"; "--csv"; "--csv=out.csv"; "--no-display"])
  = "out.csv"
  /\ csvOutput (parse_args ["dbfreader"; "my.dbf"; "--csv"; "--csv"; "--no-display"])
     = derived_csv "my.dbf".
Proof.
  apply (last_csv_option_wins "dbfreader" "my.dbf" "out.csv" ["--csv"] ["--no-display"]).
  apply List.Forall_cons; [reflexivity|apply List.Forall_nil].
Defined.

Lemma string_length_app (a b : string) :
  String.length (a ++ b) = (String.length a + String.length b)%nat.
Proof.
  induction a as [|c a IH]; simpl; [reflexivity|now rewrite IH].
Qed.

Lemma string_app_assoc (a b c : string) : (a ++ b) ++ c = a ++ (b ++ c).
Proof.
  induction a as [|x a IH]; simpl; [reflexivity|now rewrite IH].
Qed.

Lemma drop_app (a b : string) : GoStrings.drop (String.length a) (a ++ b) = b.
Proof.
  induction a as [|c a IH]; simpl; [destruct b; reflexivity|exact IH].
Qed.

Lemma take_app (a b : string) : GoStrings.take (String.length a) (a ++ b) = a.
Proof.
  induction a as [|c a IH]; simpl; [destruct b; reflexivity|now rewrite IH].
Qed.

Lemma get_app_at (a : string) (c : ascii) (b : string) :
  String.get (String.length a) (a ++ String c b) = Some c.
Proof.
  induction a as [|x a IH]; simpl; [reflexivity|exact IH].
Qed.

Section ExtOn.

(** A separator test that takes [/] and nothing Windows does not take:
    the test of either platform. *)
Variable sep : ascii -> bool.
Hypothesis sep_slash : sep "/" = true.
Hypothesis sep_within :
  forall c, sep c = true -> GoStrings.IsPathSeparator_windows c = true.

Lemma not_windows_separator (c : ascii) :
  GoStrings.IsPathSeparator_windows c = false -> sep c = false.
Proof.
  intros Hc. destruct (sep c) eqn:E; [|reflexivity].
  apply sep_within in E. congruence.
Qed.

(** The backward scan of [filepath.Ext] runs over a tail without dot or
    separator. *)
Lemma Ext_scan_on_plain (ext : string) :
  forall pre,
    plain ext = true ->
    GoStrings.Ext_scan_on sep (pre ++ ext) (String.length pre + String.length ext)
    = GoStrings.Ext_scan_on sep (pre ++ ext) (String.length pre).
Proof.
  induction ext as [|c ext IH]; intros pre Hplain.
  - simpl. now rewrite Nat.add_0_r.
  - cbn [plain] in Hplain.
    apply Bool.andb_true_iff in Hplain. destruct Hplain as [Hc Hplain].
    apply Bool.andb_true_iff in Hc. destruct Hc as [Hsep Hdot].
    apply Bool.negb_true_iff in Hsep, Hdot.
    apply not_windows_separator in Hsep.
    replace (pre ++ String c ext) with ((pre ++ String c "") ++ ext)
      by (rewrite string_app_assoc; reflexivity).
    replace (String.length pre + String.length (String c ext))%nat
      with (String.length (pre ++ String c "") + String.length ext)%nat
      by (rewrite string_length_app; simpl; lia).
    rewrite (IH _ Hplain).
    rewrite string_length_app. cbn [String.length].
    replace (String.length pre + 1)%nat with (S (String.length pre)) by lia.
    cbn [GoStrings.Ext_scan_on].
    rewrite string_app_assoc. cbn [append].
    rewrite get_app_at, Hsep, Hdot. reflexivity.
Qed.

Lemma Ext_on_with_extension (stem ext : string) :
  plain ext = true -> GoStrings.Ext_on sep (stem ++ "." ++ ext) = "." ++ ext.
Proof.
  intros Hplain. unfold GoStrings.Ext_on.
  replace (stem ++ "." ++ ext) with ((stem ++ ".") ++ ext)
    by (rewrite string_app_assoc; reflexivity).
  rewrite string_length_app, (Ext_scan_on_plain ext _ Hplain).
  rewrite string_length_app. cbn [String.length].
  replace (String.length stem + 1)%nat with (S (String.length stem)) by lia.
  cbn [GoStrings.Ext_scan_on].
  rewrite string_app_assoc. cbn [append].
  rewrite get_app_at.
  rewrite (not_windows_separator "." eq_refl).
  change (GoStrings.byte_is "." 46) with true. cbv iota.
  apply (drop_app stem (String "." ext)).
Qed.

(** A path element after a byte the platform takes for a separator. *)
Lemma Ext_on_after_separator (c : ascii) (dir name : string) :
  sep c = true ->
  plain name = true -> GoStrings.Ext_on sep (dir ++ String c name) = "".
Proof.
  intros Hc Hplain. unfold GoStrings.Ext_on.
  replace (dir ++ String c name) with ((dir ++ String c "") ++ name)
    by (rewrite string_app_assoc; reflexivity).
  rewrite string_length_app, (Ext_scan_on_plain name _ Hplain).
  rewrite string_length_app. cbn [String.length].
  replace (String.length dir + 1)%nat with (S (String.length dir)) by lia.
  cbn [GoStrings.Ext_scan_on].
  rewrite string_app_assoc. cbn [append].
  rewrite get_app_at, Hc. reflexivity.
Qed.

Lemma Ext_on_plain (name : string) : plain name = true -> GoStrings.Ext_on sep name = "".
Proof.
  intros Hplain. unfold GoStrings.Ext_on.
  exact (Ext_scan_on_plain name "" Hplain).
Qed.

End ExtOn.

(** The embedding of [main] takes [filepath.Ext] under the test of
    systems other than Windows. *)
Lemma Ext_on_unix (path : string) :
  GoStrings.Ext_on GoStrings.IsPathSeparator path = GoStrings.Ext path.
Proof.
  unfold GoStrings.Ext_on, GoStrings.Ext.
  induction (String.length path) as [|i IH]; cbn [GoStrings.Ext_scan_on GoStrings.Ext_scan];
    [reflexivity|].
  destruct (String.get i path) as [c|]; [|reflexivity].
  rewrite IH. reflexivity.
Qed.

Lemma unix_within_windows (c : ascii) :
  GoStrings.IsPathSeparator c = true -> GoStrings.IsPathSeparator_windows c = true.
Proof.
  unfold GoStrings.IsPathSeparator, GoStrings.IsPathSeparator_windows.
  intros ->. apply Bool.orb_true_r.
Qed.

Lemma TrimSuffix_empty (s : string) : GoStrings.TrimSuffix s "" = s.
Proof.
  unfold GoStrings.TrimSuffix, GoStrings.HasSuffix. cbn [String.length].
  rewrite Nat.sub_0_r.
  pose proof (drop_app s "") as Hd. pose proof (take_app s "") as Ht.
  rewrite append_nil_r in Hd, Ht. rewrite Hd, Ht.
  now destruct (0 <=? String.length s)%nat.
Qed.

Lemma TrimSuffix_app (a b : string) : GoStrings.TrimSuffix (a ++ b) b = a.
Proof.
  unfold GoStrings.TrimSuffix, GoStrings.HasSuffix.
  rewrite string_length_app.
  replace (String.length a + String.length b - String.length b)%nat
    with (String.length a) by lia.
  rewrite drop_app, take_app, String.eqb_refl.
  destruct (String.length b <=? String.length a + String.length b)%nat eqn:E;
    [reflexivity|apply Nat.leb_gt in E; lia].
Qed.

(** X4: on either platform, the path a bare [--csv] derives replaces
    the extension of the source path by [.csv] when the extension holds
    no dot, slash or backslash, and appends [.csv] when the last path
    element holds none, also below a directory whose name has a dot; on
    Windows that directory may end in a backslash.  The derivation in
    [main] as embedded is the one of systems other than Windows. *)
Theorem derived_csv_path (stem ext : string) :
  plain ext = true ->
  (forall sep,
      sep = GoStrings.IsPathSeparator \/ sep = GoStrings.IsPathSeparator_windows ->
      derived_csv_on sep (stem ++ "." ++ ext) = stem ++ ".csv"
      /\ derived_csv_on sep (stem ++ "/" ++ ext) = stem ++ "/" ++ ext ++ ".csv"
      /\ derived_csv_on sep ext = ext ++ ".csv")
  /\ derived_csv_on GoStrings.IsPathSeparator_windows (stem ++ "\" ++ ext)
     = stem ++ "\" ++ ext ++ ".csv"
  /\ (forall path, derived_csv path = derived_csv_on GoStrings.IsPathSeparator path).
Proof.
  intros Hplain. split; [|split].
  - intros sep Hsep.
    assert (Hslash : sep "/"%char = true) by (destruct Hsep as [-> | ->]; reflexivity).
    assert (Hwithin : forall c, sep c = true -> GoStrings.IsPathSeparator_windows c = true)
      by (destruct Hsep as [-> | ->]; [exact unix_within_windows|trivial]).
    unfold derived_csv_on. split; [|split].
    + rewrite (Ext_on_with_extension sep Hwithin _ _ Hplain), TrimSuffix_app. reflexivity.
    + rewrite (Ext_on_after_separator sep Hwithin "/"%char _ _ Hslash Hplain), TrimSuffix_empty.
      now rewrite !string_app_assoc.
    + rewrite (Ext_on_plain sep Hwithin _ Hplain), TrimSuffix_empty. reflexivity.
  - unfold derived_csv_on.
    rewrite (Ext_on_after_separator GoStrings.IsPathSeparator_windows (fun c H => H)
               "\"%char _ _ eq_refl Hplain), TrimSuffix_empty.
    now rewrite !string_app_assoc.
  - intros path. unfold derived_csv, derived_csv_on. now rewrite Ext_on_unix.
Qed.

Lemma derived_csv_path_witness :
  (derived_csv_on GoStrings.IsPathSeparator ("data/v1.2/orders" ++ "." ++ "dbf")
   = "data/v1.2/orders" ++ ".csv"
   /\ derived_csv_on GoStrings.IsPathSeparator ("data/v1.2/orders" ++ "/" ++ "dbf")
      = "data/v1.2/orders" ++ "/" ++ "dbf" ++ ".csv"
   /\ derived_csv_on GoStrings.IsPathSeparator "dbf" = "dbf" ++ ".csv")
  /\ (derived_csv_on GoStrings.IsPathSeparator_windows ("data/v1.2/orders" ++ "." ++ "dbf")
      = "data/v1.2/orders" ++ ".csv"
      /\ derived_csv_on GoStrings.IsPathSeparator_windows
           ("data/v1.2/orders" ++ "/" ++ "dbf")
         = "data/v1.2/orders" ++ "/" ++ "dbf" ++ ".csv"
      /\ derived_csv_on GoStrings.IsPathSeparator_windows "dbf" = "dbf" ++ ".csv")
  /\ derived_csv_on GoStrings.IsPathSeparator_windows ("data/v1.2/orders" ++ "\" ++ "dbf")
     = "data/v1.2/orders" ++ "\" ++ "dbf" ++ ".csv"
  /\ derived_csv "my.dbf" = derived_csv_on GoStrings.IsPathSeparator "my.dbf".
Proof.
  destruct (derived_csv_path "data/v1.2/orders" "dbf" eq_refl)
    as (Hboth & Hwindows & Hunix).
  split; [apply Hboth; left; reflexivity|].
  split; [apply Hboth; right; reflexivity|].
  split; [exact Hwindows|apply Hunix].
Defined.

(** A source path with backslashes, on both platforms: Windows appends
    to the last element; elsewhere the backslash is a byte like any
    other and the text from the last dot on is replaced. *)
Example derived_csv_backslash :
  derived_csv_on GoStrings.IsPathSeparator_windows "C:\data.v1\orders"
  = "C:\data.v1\orders.csv"
  /\ derived_csv "C:\data.v1\orders" = "C:\data.csv".
Proof. split; reflexivity. Qed.

(* ================================================================== *)
(** ** Further properties of [exportToCSV] *)
(* ================================================================== *)

Lemma error_lines_app (d : DBF) (a b : list Z) :
  error_lines d (a ++ b) = (error_lines d a ++ error_lines d b)%list.
Proof.
  induction a as [|i a IH]; simpl; [reflexivity|].
  destruct (RecordAt d i); rewrite IH; reflexivity.
Qed.

(** A silent run of the loop body prints and logs nothing. *)
Lemma export_record_quiet env d total i st :
  stdout (fst (export_record env d true total i st)) = stdout st
  /\ logged (fst (export_record env d true total i st)) = logged st.
Proof.
  unfold export_record.
  destruct (RecordAt d i) as [record|err]; [|split; reflexivity].
  destruct (Deleted record); [split; reflexivity|].
  destruct (build_row _ _ _) as [row|]; [|split; reflexivity].
  cbn [sink fetch]. destruct (write_err env (sink st) row); split; reflexivity.
Qed.

Lemma export_loop_quiet fuel env d total :
  forall i st,
    stdout (fst (export_loop fuel env d true total i st)) = stdout st
    /\ logged (fst (export_loop fuel env d true total i st)) = logged st.
Proof.
  induction fuel as [|fuel IH]; intros i st; cbn [export_loop]; [split; reflexivity|].
  destruct (i <? total); [|split; reflexivity].
  pose proof (export_record_quiet env d total i st) as [H1 H2].
  destruct (export_record env d true total i st) as [st' [o|]]; cbn [fst] in *.
  - split; assumption.
  - destruct (IH (uint32 (i + 1)) st') as [H3 H4]. split; congruence.
Qed.

Lemma exportToCSV_quiet env d filename st :
  stdout (fst (exportToCSV env d filename true st)) = stdout st
  /\ logged (fst (exportToCSV env d filename true st)) = logged st.
Proof.
  rewrite exportToCSV_unfold. cbv zeta.
  destruct (create_err env filename); [split; reflexivity|].
  destruct (write_err env _ _); cbn [fst]; unflush; [split; reflexivity|].
  match goal with |- context [export_loop ?f env d true ?t ?i ?s] =>
    destruct (export_loop_quiet f env d t i s) as [H1 H2] end.
  rewrite H1, H2. split; reflexivity.
Qed.

(** The loop body fetches index [i] and, unless silent, logs its failure. *)
Lemma export_record_logged env d silent total i st :
  logged (fst (export_record env d silent total i st))
  = (logged st ++ if silent then [] else error_lines d [i])%list.
Proof.
  unfold export_record. cbn [error_lines].
  destruct (RecordAt d i) as [record|err].
  - assert (E : (logged st ++ (if silent then [] else []))%list = logged st)
      by (destruct silent; apply List.app_nil_r).
    rewrite E.
    destruct (Deleted record); [reflexivity|].
    destruct (build_row _ _ _) as [row|]; [|reflexivity].
    cbn [sink fetch]. destruct (write_err env (sink st) row); [reflexivity|].
    case_if; reflexivity.
  - destruct silent; cbn [fst logged log fetch]; [now rewrite List.app_nil_r|reflexivity].
Qed.

Lemma export_loop_logged fuel env d silent total :
  forall i st,
  exists added,
    fetched (fst (export_loop fuel env d silent total i st)) = (fetched st ++ added)%list
    /\ logged (fst (export_loop fuel env d silent total i st))
       = (logged st ++ if silent then [] else error_lines d added)%list.
Proof.
  induction fuel as [|fuel IH]; intros i st; cbn [export_loop].
  - exists []. cbn [fst error_lines]. rewrite List.app_nil_r.
    split; [reflexivity|]. destruct silent; now rewrite List.app_nil_r.
  - destruct (i <? total).
    + pose proof (export_record_logged env d silent total i st) as Hl.
      pose proof (export_record_spec env d silent total i st) as [Hf _].
      destruct (export_record env d silent total i st) as [st' [o|]]; cbn [fst] in *.
      * exists [i]. split; assumption.
      * destruct (IH (uint32 (i + 1)) st') as (added & Hf' & Hl').
        exists (i :: added). rewrite Hf', Hl', Hf, Hl, <- !List.app_assoc.
        split; [reflexivity|].
        destruct silent; [reflexivity|].
        change (i :: added) with ([i] ++ added)%list.
        now rewrite error_lines_app.
    + exists []. cbn [fst error_lines]. rewrite List.app_nil_r.
      split; [reflexivity|]. destruct silent; now rewrite List.app_nil_r.
Qed.

Lemma exportToCSV_logged env d filename silent st :
  exists added,
    fetched (fst (exportToCSV env d filename silent st)) = (fetched st ++ added)%list
    /\ logged (fst (exportToCSV env d filename silent st))
       = (logged st ++ if silent then [] else error_lines d added)%list.
Proof.
  rewrite exportToCSV_unfold. cbv zeta.
  assert (Hnone : exists added : list Z,
             fetched st = (fetched st ++ added)%list
             /\ logged st = (logged st ++ if silent then [] else error_lines d added)%list).
  { exists []. rewrite List.app_nil_r. split; [reflexivity|].
    destruct silent; now rewrite List.app_nil_r. }
  destruct (create_err env filename); [destruct silent; exact Hnone|].
  destruct (write_err env _ _); cbn [fst]; unflush; [destruct silent; exact Hnone|].
  match goal with |- context [export_loop ?f env d silent ?t ?i ?s] =>
    destruct (export_loop_logged f env d silent t i s) as (added & Hf & Hl) end.
  exists added. rewrite Hf, Hl. destruct silent; split; reflexivity.
Qed.

Lemma indices_length (n : nat) : forall i, List.length (indices i n) = n.
Proof.
  induction n as [|n IH]; intros i; simpl; [reflexivity|now rewrite IH].
Qed.

(** X5: [exportToCSV] fetches the indices from 0 upwards, each once and
    none beyond the record count, whatever fails; and, unless it is
    silent, it logs one line for each failed fetch among them, in index
    order, and nothing else. *)
Theorem export_fetches_in_order_and_logs_failures env d filename silent st :
  0 <= NumRecords d < 2 ^ 32 ->
  exists n : nat,
    Z.of_nat n <= NumRecords d
    /\ fetched (fst (exportToCSV env d filename silent st))
       = (fetched st ++ indices 0 n)%list
    /\ logged (fst (exportToCSV env d filename silent st))
       = (logged st ++ if silent then [] else error_lines d (indices 0 n))%list.
Proof.
  intros Hn.
  destruct (exportToCSV_logged env d filename silent st) as (added & Hf & Hl).
  assert (Hadded : exists n : nat, Z.of_nat n <= NumRecords d /\ added = indices 0 n).
  { destruct (create_err env filename) as [err|] eqn:Hc.
    - exists 0%nat. split; [lia|].
      rewrite exportToCSV_unfold in Hf. cbv zeta in Hf. rewrite Hc in Hf.
      assert (E : (fetched st ++ added = fetched st ++ [])%list)
        by (rewrite List.app_nil_r, <- Hf; destruct silent; reflexivity).
      now apply List.app_inv_head in E.
    - destruct (write_err env [] (FieldNames d)) as [err|] eqn:Hw.
      + exists 0%nat. split; [lia|].
        rewrite exportToCSV_unfold in Hf. cbv zeta in Hf. rewrite Hc, Hw in Hf.
        cbn [fst] in Hf. rewrite flush_fetched in Hf.
        assert (E : (fetched st ++ added = fetched st ++ [])%list)
          by (rewrite List.app_nil_r, <- Hf; destruct silent; reflexivity).
        now apply List.app_inv_head in E.
      + destruct (exportToCSV env d filename silent st) as [st' o] eqn:Hrun.
        destruct (exportToCSV_post env d filename silent st st' o Hn Hc Hw Hrun)
          as (m & Hm & _ & _ & Ho).
        cbn [fst fetched set_sink set_processed] in *.
        assert (E : exists n : nat, Z.of_nat n <= NumRecords d
                      /\ fetched st' = (fetched st ++ indices 0 n)%list).
        { destruct o as [[msg|]| |].
          - destruct Ho as (Hlt & Hfe & _). exists (S m). split; [lia|exact Hfe].
          - destruct Ho as (Heq & Hfe). exists m. split; [lia|exact Hfe].
          - destruct Ho as (Hlt & Hfe & _). exists (S m). split; [lia|exact Hfe].
          - contradiction. }
        destruct E as (n & Hle & Hfe). exists n. split; [exact Hle|].
        rewrite Hfe in Hf. now apply List.app_inv_head in Hf. }
  destruct Hadded as (n & Hle & ->). exists n. auto.
Qed.

Lemma export_fetches_in_order_and_logs_failures_witness :
  exists n : nat,
    Z.of_nat n <= NumRecords sample_dbf
    /\ fetched (fst (exportToCSV sample_env sample_dbf "my.csv" false start))
       = (fetched start ++ indices 0 n)%list
    /\ logged (fst (exportToCSV sample_env sample_dbf "my.csv" false start))
       = (logged start ++ error_lines sample_dbf (indices 0 n))%list.
Proof.
  apply (export_fetches_in_order_and_logs_failures sample_env sample_dbf "my.csv" false start).
  simpl. lia.
Defined.

(** Reduce the projections of a state built by the program's steps. *)
Ltac state_fields :=
  cbn [fst snd stdout logged sink processedRecords fetched created opened
       fetch log print create open set_sink set_processed].

Lemma export_record_silent_irrelevant env d total i a b :
  same_data a b ->
  same_data (fst (export_record env d true total i a))
            (fst (export_record env d false total i b))
  /\ snd (export_record env d true total i a) = snd (export_record env d false total i b).
Proof.
  intros (Hs & Hp & Hf & Hc & Ho). unfold export_record, same_data.
  destruct (RecordAt d i) as [record|err].
  - destruct (Deleted record); [state_fields; repeat split; congruence|].
    destruct (build_row _ _ _) as [row|]; [|state_fields; repeat split; congruence].
    state_fields. rewrite Hs.
    destruct (write_err env (sink b) row); [state_fields; repeat split; congruence|].
    cbn [negb andb]. case_if; state_fields; repeat split; congruence.
  - state_fields. repeat split; congruence.
Qed.

Lemma export_loop_silent_irrelevant fuel env d total :
  forall i a b,
    same_data a b ->
    same_data (fst (export_loop fuel env d true total i a))
              (fst (export_loop fuel env d false total i b))
    /\ snd (export_loop fuel env d true total i a)
       = snd (export_loop fuel env d false total i b).
Proof.
  induction fuel as [|fuel IH]; intros i a b Hab; cbn [export_loop].
  - split; [exact Hab|reflexivity].
  - destruct (i <? total); [|split; [exact Hab|reflexivity]].
    destruct (export_record_silent_irrelevant env d total i a b Hab) as [Hst Ho].
    destruct (export_record env d true total i a) as [a' oa].
    destruct (export_record env d false total i b) as [b' ob].
    cbn [fst snd] in Hst, Ho. subst ob.
    destruct oa as [o|]; [split; [exact Hst|reflexivity]|].
    apply IH. exact Hst.
Qed.

(** X6: the [silent] flag changes what is printed and logged and nothing
    else: a silent export prints and logs nothing, and it ends the same
    way, with the same rows in the sink, the same counter and the same
    records fetched as the export that is not silent. *)
Theorem silent_changes_console_only env d filename st :
  stdout (fst (exportToCSV env d filename true st)) = stdout st
  /\ logged (fst (exportToCSV env d filename true st)) = logged st
  /\ same_data (fst (exportToCSV env d filename true st))
               (fst (exportToCSV env d filename false st))
  /\ snd (exportToCSV env d filename true st) = snd (exportToCSV env d filename false st).
Proof.
  destruct (exportToCSV_quiet env d filename st) as [H1 H2].
  split; [exact H1|]. split; [exact H2|].
  rewrite !exportToCSV_unfold. cbv zeta.
  destruct (create_err env filename);
    [split; [unfold same_data; repeat split; reflexivity|reflexivity]|].
  destruct (write_err env [] (FieldNames d)); cbn [fst snd];
    [split; [unfold same_data; unflush; repeat split; reflexivity|reflexivity]|].
  match goal with
  | |- same_data (flush env (fst (export_loop ?f env d true ?t ?i ?a)))
                 (flush env (fst (export_loop ?f env d false ?t ?i ?b))) /\ _ =>
      destruct (export_loop_silent_irrelevant f env d t i a b) as [Hst Ho];
        [unfold same_data; repeat split; reflexivity|]
  end.
  split; [|exact Ho].
  unfold same_data in Hst |- *. unflush. exact Hst.
Qed.

Lemma deleted_count_nonneg d : forall n i, 0 <= deleted_count d i n.
Proof.
  induction n as [|n IH]; intros i; cbn [deleted_count]; [lia|].
  specialize (IH (i + 1)).
  destruct (RecordAt d i) as [record|err]; [destruct (Deleted record)|]; lia.
Qed.

Lemma failed_count_nonneg d : forall n i, 0 <= failed_count d i n.
Proof.
  induction n as [|n IH]; intros i; cbn [failed_count]; [lia|].
  specialize (IH (i + 1)).
  destruct (RecordAt d i); lia.
Qed.

(** X7: with one value per descriptor in every record and no failing
    sink operation, the export returns [nil] however many fetches fail;
    the rows written number the record count less the deleted records
    and the failed fetches, so the counter equals the record count
    exactly when no record is deleted and no fetch fails. *)
Theorem export_tolerates_failed_fetches env d filename silent st :
  0 <= NumRecords d < 2 ^ 32 ->
  paired d ->
  create_err env filename = None ->
  (forall rows row, write_err env rows row = None) ->
  exists st',
    exportToCSV env d filename silent st = (st', Returned None)
    /\ sink st' = FieldNames d :: live_rows d 0 (Z.to_nat (NumRecords d))
    /\ processedRecords st'
       = NumRecords d - deleted_count d 0 (Z.to_nat (NumRecords d))
         - failed_count d 0 (Z.to_nat (NumRecords d))
    /\ (processedRecords st' = NumRecords d
        <-> deleted_count d 0 (Z.to_nat (NumRecords d)) = 0
            /\ failed_count d 0 (Z.to_nat (NumRecords d)) = 0).
Proof.
  intros Hn Hpaired Hc Hw.
  destruct (exportToCSV_nil env d filename silent st Hn Hpaired Hc Hw)
    as (st' & Hrun & Hs & Hp).
  rewrite (live_count d Hpaired) in Hp.
  pose proof (deleted_count_nonneg d (Z.to_nat (NumRecords d)) 0) as Hd.
  pose proof (failed_count_nonneg d (Z.to_nat (NumRecords d)) 0) as Hf.
  exists st'. split; [exact Hrun|]. split; [exact Hs|].
  split; [lia|]. rewrite Hp. split; lia.
Qed.

Lemma export_tolerates_failed_fetches_witness :
  exists st',
    exportToCSV sample_env sample_dbf "my.csv" true start = (st', Returned None)
    /\ sink st' = FieldNames sample_dbf :: live_rows sample_dbf 0 (Z.to_nat (NumRecords sample_dbf))
    /\ processedRecords st'
       = NumRecords sample_dbf - deleted_count sample_dbf 0 (Z.to_nat (NumRecords sample_dbf))
         - failed_count sample_dbf 0 (Z.to_nat (NumRecords sample_dbf))
    /\ (processedRecords st' = NumRecords sample_dbf
        <-> deleted_count sample_dbf 0 (Z.to_nat (NumRecords sample_dbf)) = 0
            /\ failed_count sample_dbf 0 (Z.to_nat (NumRecords sample_dbf)) = 0).
Proof.
  apply (export_tolerates_failed_fetches sample_env sample_dbf "my.csv" true start).
  - simpl. lia.
  - exact sample_dbf_paired.
  - reflexivity.
  - reflexivity.
Defined.

Lemma live_rows_app d (m : nat) :
  forall k i,
    live_rows d i (m + k)
    = (live_rows d i m ++ live_rows d (i + Z.of_nat m) k)%list.
Proof.
  induction m as [|m IH]; intros k i.
  - simpl. now rewrite Z.add_0_r.
  - cbn [Nat.add live_rows]. rewrite IH.
    replace (i + 1 + Z.of_nat m) with (i + Z.of_nat (S m)) by lia.
    destruct (row_of d i); reflexivity.
Qed.

(** X8: whatever ends an export after the header was accepted, the sink
    then holds a prefix of what the export writes when no write fails:
    the header and the rows of the first records, in order, with nothing
    missing in between. *)
Theorem partial_export_is_prefix env d filename silent st st' o :
  0 <= NumRecords d < 2 ^ 32 ->
  create_err env filename = None ->
  write_err env [] (FieldNames d) = None ->
  exportToCSV env d filename silent st = (st', o) ->
  exists rest,
    FieldNames d :: live_rows d 0 (Z.to_nat (NumRecords d)) = (sink st' ++ rest)%list.
Proof.
  intros Hn Hc Hw Hrun.
  destruct (exportToCSV_post env d filename silent st st' o Hn Hc Hw Hrun)
    as (m & Hm & Hs & _).
  cbn [sink set_sink set_processed List.app] in Hs.
  exists (live_rows d (Z.of_nat m) (Z.to_nat (NumRecords d) - m)).
  rewrite Hs. cbn [List.app]. f_equal.
  replace (Z.to_nat (NumRecords d)) with (m + (Z.to_nat (NumRecords d) - m))%nat at 1 by lia.
  rewrite live_rows_app. reflexivity.
Qed.

Lemma partial_export_is_prefix_witness :
  exists rest,
    FieldNames sample_dbf :: live_rows sample_dbf 0 (Z.to_nat (NumRecords sample_dbf))
    = (sink (fst (exportToCSV full_env sample_dbf "my.csv" true start)) ++ rest)%list.
Proof.
  apply (partial_export_is_prefix full_env sample_dbf "my.csv" true start
           (fst (exportToCSV full_env sample_dbf "my.csv" true start))
           (snd (exportToCSV full_env sample_dbf "my.csv" true start))).
  - simpl. lia.
  - reflexivity.
  - reflexivity.
  - vm_compute. reflexivity.
Defined.

Lemma build_row_too_long fields :
  forall values j,
    values <> [] ->
    (List.length fields < j + List.length values)%nat ->
    build_row fields j values = None.
Proof.
  induction values as [|v values IH]; intros j Hne Hlen; [congruence|].
  cbn [build_row].
  destruct (List.nth_error fields j) as [field|] eqn:Hj; [|reflexivity].
  assert (Hlt : (j < List.length fields)%nat)
    by (apply List.nth_error_Some; congruence).
  rewrite IH; [reflexivity| |cbn [List.length] in Hlen; lia].
  destruct values; [cbn [List.length] in Hlen; lia|discriminate].
Qed.

(** X9: building a row panics exactly when the record has more values
    than the schema has descriptors; with fewer values the row is built,
    one string per value, without padding; and the loop body panics at a
    live record with too many values, before anything is written for it. *)
Theorem build_row_panics_iff_too_many_values (fields : list FieldHeader) (values : list value) :
  (build_row fields 0 values = None <-> (List.length fields < List.length values)%nat)
  /\ (forall row, build_row fields 0 values = Some row ->
        List.length row = List.length values)
  /\ (forall env d silent total i st record,
        Fields d = fields ->
        RecordAt d i = Ok record ->
        Deleted record = false ->
        FieldSlice record = values ->
        (List.length fields < List.length values)%nat ->
        export_record env d silent total i st = (fetch i st, Some Panicked)).
Proof.
  assert (Hiff : build_row fields 0 values = None
                 <-> (List.length fields < List.length values)%nat).
  { split.
    - intros Hnone.
      destruct (Nat.lt_ge_cases (List.length fields) (List.length values)) as [H|H];
        [exact H|].
      destruct (build_row_paired fields values 0) as (row & Hrow & _); [simpl; lia|].
      congruence.
    - intros Hlt. apply build_row_too_long; [|simpl; lia].
      destruct values; [simpl in Hlt; lia|discriminate]. }
  split; [exact Hiff|]. split.
  - intros row Hrow.
    destruct (Nat.lt_ge_cases (List.length fields) (List.length values)) as [H|H].
    + apply Hiff in H. congruence.
    + destruct (build_row_paired fields values 0) as (row' & Hrow' & Hlen & _);
        [simpl; lia|].
      congruence.
  - intros env d silent total i st record Hf Hrec Hdel Hv Hlt.
    unfold export_record. rewrite Hrec, Hdel, Hf, Hv.
    apply Hiff in Hlt. rewrite Hlt. reflexivity.
Qed.

Lemma build_row_panics_iff_too_many_values_witness :
  build_row sample_fields 0 [VString "a"; VInt64 1; VBool true] = None
  /\ (forall row, build_row sample_fields 0 [VString "a"] = Some row ->
        List.length row = 1%nat).
Proof.
  split.
  - apply (proj1 (build_row_panics_iff_too_many_values sample_fields
                    [VString "a"; VInt64 1; VBool true])).
    simpl. lia.
  - apply (proj1 (proj2 (build_row_panics_iff_too_many_values sample_fields [VString "a"]))).
Defined.

(** X10: a table without records exports as the header row alone: no
    record is fetched, the counter stays 0 and the export returns [nil]. *)
Theorem empty_table_exports_header_only env d filename silent st :
  NumRecords d = 0 ->
  create_err env filename = None ->
  write_err env [] (FieldNames d) = None ->
  exists st',
    exportToCSV env d filename silent st = (st', Returned None)
    /\ sink st' = [FieldNames d]
    /\ processedRecords st' = 0
    /\ fetched st' = fetched st
    /\ logged st' = logged st.
Proof.
  intros Hn Hc Hw. rewrite exportToCSV_unfold. cbv zeta.
  rewrite Hc, Hw, Hn.
  cbn [Z.to_nat export_loop Z.ltb Z.compare fst snd].
  eexists. split; [reflexivity|]. unflush. destruct silent; repeat split; reflexivity.
Qed.

Lemma empty_table_exports_header_only_witness :
  exists st',
    exportToCSV sample_env (mkDBF 0 sample_fields (fun _ => Err "no such record"))
      "empty.csv" true start
    = (st', Returned None)
    /\ sink st' = [["NAME"; "AMT"]]
    /\ processedRecords st' = 0
    /\ fetched st' = fetched start
    /\ logged st' = logged start.
Proof.
  apply (empty_table_exports_header_only sample_env
           (mkDBF 0 sample_fields (fun _ => Err "no such record")) "empty.csv" true start);
    reflexivity.
Defined.

(* ================================================================== *)
(** ** Further properties of [main] *)
(* ================================================================== *)

Lemma decoder_for_cases (encoding : string) :
  decoder_for encoding
  = if String.eqb encoding "big5" then Big5Decoder
    else if String.eqb encoding "utf8" then UTF8Decoder
    else Win1250Decoder.
Proof.
  unfold decoder_for, choose_decoder. repeat case_if; reflexivity.
Qed.

(** Lines 60-72 print the warning exactly for an encoding without a
    case, and change nothing else. *)
Lemma choose_decoder_spec (encoding : string) (st : State) :
  choose_decoder encoding st
  = ((if supported encoding then st else print (unsupported_warning encoding) st),
     decoder_for encoding).
Proof.
  rewrite decoder_for_cases. unfold choose_decoder, supported, unsupported_warning.
  destruct (String.eqb encoding "big5"), (String.eqb encoding "utf8"),
    (String.eqb encoding "win1250"); reflexivity.
Qed.

(** The state of [main] when it calls [dbf.OpenFile]. *)
Lemma main_before_open (env : Env) (Args : list string) :
  (2 <= List.length Args)%nat ->
  exists st1,
    stdout st1
    = (opening_lines (parse_args Args) ++ warning_lines (encoding (parse_args Args)))%list
    /\ logged st1 = [] /\ created st1 = [] /\ sink st1 = [] /\ fetched st1 = []
    /\ opened st1
       = [(dbfFile (parse_args Args), decoder_for (encoding (parse_args Args)))]
    /\ main env Args
       = match OpenFile env (dbfFile (parse_args Args))
                 (decoder_for (encoding (parse_args Args))) with
         | Err err => (log ("Error opening DBF file: " ++ err) st1, Exit 1)
         | Ok d =>
             export_if_requested env d (parse_args Args)
               (if noDisplay (parse_args Args) then st1
                else print ("Field names: [" ++ GoStrings.Join (FieldNames d) " "
                            ++ "]" ++ nl)
                       (print ("Number of fields: "
                               ++ GoStrconv.FormatInt (NumFields d) ++ nl)
                          (print ("Total records: "
                                  ++ GoStrconv.FormatInt (NumRecords d) ++ nl) st1)))
         end.
Proof.
  intros Hlen. unfold main.
  destruct (List.length Args <? 2)%nat eqn:Hlt; [apply Nat.ltb_lt in Hlt; lia|].
  set (l := parse_args Args).
  rewrite choose_decoder_spec.
  unfold opening_lines, warning_lines. fold l.
  eexists. split; [|split; [|split; [|split; [|split; [|split; [|reflexivity]]]]]].
  - destruct (noDisplay l), (supported (encoding l)),
      (String.eqb (csvOutput l) ""); reflexivity.
  - destruct (noDisplay l), (supported (encoding l)),
      (String.eqb (csvOutput l) ""); reflexivity.
  - destruct (noDisplay l), (supported (encoding l)),
      (String.eqb (csvOutput l) ""); reflexivity.
  - destruct (noDisplay l), (supported (encoding l)),
      (String.eqb (csvOutput l) ""); reflexivity.
  - destruct (noDisplay l), (supported (encoding l)),
      (String.eqb (csvOutput l) ""); reflexivity.
  - destruct (noDisplay l), (supported (encoding l)),
      (String.eqb (csvOutput l) ""); reflexivity.
Qed.

Lemma parse_args_with_encoding (prog file enc : string) (rest : list string) :
  GoStrings.HasPrefix enc "--" = false ->
  encoding (parse_args (prog :: file :: enc :: rest)) = GoStrings.ToLower enc
  /\ dbfFile (parse_args (prog :: file :: enc :: rest)) = file.
Proof.
  intros Hdash. unfold parse_args. cbn [List.skipn List.nth parse_loop].
  rewrite parse_loop_encoding by lia.
  rewrite parse_loop_dbfFile, parse_arg_dbfFile, parse_arg_encoding, Hdash.
  split; reflexivity.
Qed.

(** X11: an encoding argument selects the decoder by its lower-case
    form: [big5] and [utf8] select their decoders, and every other value,
    [win1250] or not, selects the win1250 decoder; the source is opened
    once, with that decoder. *)
Theorem main_decoder_from_argument (env : Env) (prog file enc : string)
    (rest : list string) :
  GoStrings.HasPrefix enc "--" = false ->
  opened (fst (main env (prog :: file :: enc :: rest)))
  = [(file,
      if String.eqb (GoStrings.ToLower enc) "big5" then Big5Decoder
      else if String.eqb (GoStrings.ToLower enc) "utf8" then UTF8Decoder
      else Win1250Decoder)].
Proof.
  intros Hdash.
  destruct (parse_args_with_encoding prog file enc rest Hdash) as [Henc Hfile].
  destruct (main_before_open env (prog :: file :: enc :: rest)) as
    (st1 & _ & _ & _ & _ & _ & Hopened & Hmain); [simpl; lia|].
  rewrite Hmain, Henc, Hfile in *. rewrite <- decoder_for_cases.
  destruct (OpenFile env file (decoder_for (GoStrings.ToLower enc))) as [d|err].
  - rewrite export_if_requested_opened.
    destruct (noDisplay _); state_fields; exact Hopened.
  - state_fields. exact Hopened.
Qed.

Lemma main_decoder_from_argument_witness :
  opened (fst (main sample_env ["dbfreader"; "my.dbf"; "UTF8"; "--csv"]))
  = [("my.dbf",
      if String.eqb (GoStrings.ToLower "UTF8") "big5" then Big5Decoder
      else if String.eqb (GoStrings.ToLower "UTF8") "utf8" then UTF8Decoder
      else Win1250Decoder)].
Proof.
  apply (main_decoder_from_argument sample_env "dbfreader" "my.dbf" "UTF8" ["--csv"]).
  reflexivity.
Defined.

Lemma export_if_requested_quiet env d l st :
  noDisplay l = true ->
  stdout (fst (export_if_requested env d l st)) = stdout st
  /\ forall d', snd (export_if_requested env d l st) <> Display d'.
Proof.
  intros Hq. unfold export_if_requested. rewrite Hq.
  destruct (negb (String.eqb (csvOutput l) "")).
  - destruct (exportToCSV_quiet env d (csvOutput l) st) as [Hout _].
    destruct (exportToCSV env d (csvOutput l) true st) as [st' o]. cbn [fst] in Hout.
    destruct o as [[err|]| |]; state_fields; (split; [exact Hout|discriminate]).
  - split; [reflexivity|discriminate].
Qed.

Lemma export_if_requested_fatal env d l st :
  noDisplay l = true ->
  (logged (fst (export_if_requested env d l st)) = logged st
   /\ snd (export_if_requested env d l st) <> Exit 1)
  \/ exists err,
       snd (export_if_requested env d l st) = Exit 1
       /\ logged (fst (export_if_requested env d l st))
          = (logged st ++ [String.append "Error exporting to CSV: " err])%list.
Proof.
  intros Hq. unfold export_if_requested. rewrite Hq.
  destruct (negb (String.eqb (csvOutput l) "")).
  - destruct (exportToCSV_quiet env d (csvOutput l) st) as [_ Hlog].
    destruct (exportToCSV env d (csvOutput l) true st) as [st' o]. cbn [fst] in Hlog.
    destruct o as [[err|]| |]; state_fields;
      try (left; split; [exact Hlog|discriminate]).
    right. exists err. rewrite Hlog. split; reflexivity.
  - left. split; [reflexivity|discriminate].
Qed.

(** X12: what [--no-display] leaves on the console, for an ASCII
    encoding argument.  On standard output: nothing but the warning
    about an encoding the switch has no case for, which line 70 prints
    unguarded; and [main] never goes on to the console display.  In the
    log: nothing, unless [main] ends with status 1, and then the one
    fatal message of line 77 or line 92, which no option silences.  (A
    panic is reported by the Go runtime and ends in [Crash].) *)
Theorem no_display_leaves_warning_and_fatal_errors (env : Env) (Args : list string) :
  (2 <= List.length Args)%nat ->
  is_ascii (List.nth 2 Args "") = true ->
  noDisplay (parse_args Args) = true ->
  stdout (fst (main env Args)) = warning_lines (encoding (parse_args Args))
  /\ (forall d, snd (main env Args) <> Display d)
  /\ ((logged (fst (main env Args)) = [] /\ snd (main env Args) <> Exit 1)
      \/ exists err,
           snd (main env Args) = Exit 1
           /\ (logged (fst (main env Args)) = ["Error opening DBF file: " ++ err]
               \/ logged (fst (main env Args)) = ["Error exporting to CSV: " ++ err])).
Proof.
  intros Hlen _ Hq.
  destruct (main_before_open env Args Hlen)
    as (st1 & Hout & Hlog & _ & _ & _ & _ & Hmain).
  rewrite Hmain. unfold opening_lines in Hout. rewrite Hq in Hout. cbn [List.app] in Hout.
  destruct (OpenFile env _ _) as [d|err].
  - rewrite Hq.
    destruct (export_if_requested_quiet env d (parse_args Args) st1 Hq) as [H1 H2].
    split; [congruence|]. split; [exact H2|].
    destruct (export_if_requested_fatal env d (parse_args Args) st1 Hq)
      as [[Hl He]|(err & He & Hl)].
    + left. split; [congruence|exact He].
    + right. exists err. split; [exact He|].
      right. rewrite Hl, Hlog. reflexivity.
  - state_fields. split; [exact Hout|]. split; [discriminate|].
    right. exists err. split; [reflexivity|].
    left. rewrite Hlog. reflexivity.
Qed.

Lemma no_display_leaves_warning_and_fatal_errors_witness :
  stdout (fst (main uncreatable_env
                 ["dbfreader"; "my.dbf"; "Latin1"; "--csv"; "--no-display"]))
  = warning_lines (encoding (parse_args
                     ["dbfreader"; "my.dbf"; "Latin1"; "--csv"; "--no-display"]))
  /\ (forall d,
        snd (main uncreatable_env
               ["dbfreader"; "my.dbf"; "Latin1"; "--csv"; "--no-display"])
        <> Display d)
  /\ ((logged (fst (main uncreatable_env
                      ["dbfreader"; "my.dbf"; "Latin1"; "--csv"; "--no-display"])) = []
       /\ snd (main uncreatable_env
                 ["dbfreader"; "my.dbf"; "Latin1"; "--csv"; "--no-display"]) <> Exit 1)
      \/ exists err,
           snd (main uncreatable_env
                  ["dbfreader"; "my.dbf"; "Latin1"; "--csv"; "--no-display"]) = Exit 1
           /\ (logged (fst (main uncreatable_env
                              ["dbfreader"; "my.dbf"; "Latin1"; "--csv"; "--no-display"]))
               = ["Error opening DBF file: " ++ err]
               \/ logged (fst (main uncreatable_env
                                 ["dbfreader"; "my.dbf"; "Latin1"; "--csv"; "--no-display"]))
                  = ["Error exporting to CSV: " ++ err])).
Proof.
  apply (no_display_leaves_warning_and_fatal_errors uncreatable_env
           ["dbfreader"; "my.dbf"; "Latin1"; "--csv"; "--no-display"]).
  - simpl. lia.
  - reflexivity.
  - reflexivity.
Defined.

(** The same run, evaluated: the warning on standard output, the fatal
    message in the log. *)
Example no_display_run :
  main uncreatable_env ["dbfreader"; "my.dbf"; "Latin1"; "--csv"; "--no-display"]
  = (mkState ["Unsupported encoding: latin1. Using win1250 as default." ++ nl]
       ["Error exporting to CSV: failed to create CSV file: permission denied"]
       [("my.dbf", Win1250Decoder)] ["my.csv"] [] 0 [] [],
     Exit 1).
Proof. vm_compute. reflexivity. Qed.

(** X13: when the source cannot be opened, [main] logs the error and
    exits with status 1; no CSV file is created, nothing is written and
    no record is fetched, whatever the options. *)
Theorem open_failure_creates_nothing (env : Env) (Args : list string) (err : string) :
  (2 <= List.length Args)%nat ->
  OpenFile env (dbfFile (parse_args Args)) (decoder_for (encoding (parse_args Args)))
  = Err err ->
  snd (main env Args) = Exit 1
  /\ logged (fst (main env Args)) = ["Error opening DBF file: " ++ err]
  /\ created (fst (main env Args)) = []
  /\ sink (fst (main env Args)) = []
  /\ fetched (fst (main env Args)) = [].
Proof.
  intros Hlen Hopen.
  destruct (main_before_open env Args Hlen)
    as (st1 & _ & Hlog & Hcr & Hsink & Hfe & _ & Hmain).
  rewrite Hmain, Hopen. state_fields. rewrite Hlog.
  repeat split; assumption.
Qed.

Lemma open_failure_creates_nothing_witness :
  snd (main unopenable_env
         ["dbfreader"; "missing.dbf"; "--csv"]) = Exit 1
  /\ logged (fst (main unopenable_env
                    ["dbfreader"; "missing.dbf"; "--csv"]))
     = ["Error opening DBF file: " ++ "no such file"]
  /\ created (fst (main unopenable_env
                     ["dbfreader"; "missing.dbf"; "--csv"])) = []
  /\ sink (fst (main unopenable_env
                  ["dbfreader"; "missing.dbf"; "--csv"])) = []
  /\ fetched (fst (main unopenable_env
                     ["dbfreader"; "missing.dbf"; "--csv"])) = [].
Proof.
  apply (open_failure_creates_nothing
           unopenable_env
           ["dbfreader"; "missing.dbf"; "--csv"] "no such file").
  - simpl. lia.
  - reflexivity.
Defined.

Lemma exportToCSV_create_fails env d filename silent st err :
  create_err env filename = Some err ->
  exportToCSV env d filename silent st
  = (create filename
       (if silent then st
        else print ("Exporting to CSV: " ++ filename ++ "..." ++ String "010" "") st),
     Returned (Some ("failed to create CSV file: " ++ err))).
Proof.
  intros Hc. unfold exportToCSV. rewrite Hc. reflexivity.
Qed.

(** X14: when the CSV file cannot be created, [main] logs the error,
    wrapped by [exportToCSV] and by [main], and exits with status 1
    without fetching a record or writing a row. *)
Theorem create_failure_ends_main (env : Env) (Args : list string) (d : DBF) (err : string) :
  (2 <= List.length Args)%nat ->
  OpenFile env (dbfFile (parse_args Args)) (decoder_for (encoding (parse_args Args)))
  = Ok d ->
  csvOutput (parse_args Args) <> "" ->
  create_err env (csvOutput (parse_args Args)) = Some err ->
  snd (main env Args) = Exit 1
  /\ logged (fst (main env Args))
     = ["Error exporting to CSV: " ++ "failed to create CSV file: " ++ err]
  /\ sink (fst (main env Args)) = []
  /\ fetched (fst (main env Args)) = [].
Proof.
  intros Hlen Hopen Hcsv Hc.
  destruct (main_before_open env Args Hlen)
    as (st1 & _ & Hlog & _ & Hsink & Hfe & _ & Hmain).
  rewrite Hmain, Hopen. unfold export_if_requested.
  apply String.eqb_neq in Hcsv. rewrite Hcsv. cbn [negb].
  rewrite (exportToCSV_create_fails _ _ _ _ _ _ Hc).
  destruct (noDisplay (parse_args Args)); state_fields; rewrite Hlog;
    repeat split; assumption.
Qed.

Lemma create_failure_ends_main_witness :
  snd (main uncreatable_env
         ["dbfreader"; "my.dbf"; "--csv"]) = Exit 1
  /\ logged (fst (main uncreatable_env
                    ["dbfreader"; "my.dbf"; "--csv"]))
     = ["Error exporting to CSV: " ++ "failed to create CSV file: " ++ "permission denied"]
  /\ sink (fst (main uncreatable_env
                  ["dbfreader"; "my.dbf"; "--csv"])) = []
  /\ fetched (fst (main uncreatable_env
                     ["dbfreader"; "my.dbf"; "--csv"])) = [].
Proof.
  apply (create_failure_ends_main
           uncreatable_env
           ["dbfreader"; "my.dbf"; "--csv"] sample_dbf "permission denied").
  - simpl. lia.
  - reflexivity.
  - discriminate.
  - reflexivity.
Defined.

(* ================================================================== *)
(** ** Further properties of [formatValueForCSV] *)
(* ================================================================== *)

Lemma to_int_not_nil (i : Z) :
  Z.to_int i <> Decimal.Pos Decimal.Nil /\ Z.to_int i <> Decimal.Neg Decimal.Nil.
Proof.
  destruct i as [|p|p]; cbn [Z.to_int]; split; try discriminate;
    intros H; injection H as H; exact (DecimalPos.Unsigned.to_uint_nonnil p H).
Qed.

(** The decimal rendering of an integer reads back as that integer. *)
Lemma read_int_FormatInt (i : Z) : read_int (GoStrconv.FormatInt i) = Some i.
Proof.
  unfold read_int, GoStrconv.FormatInt.
  destruct (to_int_not_nil i) as [H1 H2].
  rewrite (NilZero.isi _ H1 H2). cbn [option_map].
  now rewrite DecimalZ.of_to.
Qed.

(** X15: an [int64] exports without loss from an Integer field and from
    a Numeric field of scale 0: the string is its decimal form, which
    reads back as the same integer and has no decimal point. *)
Theorem integer_export_round_trips (i : Z) (field : FieldHeader) :
  FieldType field = "I" \/ (FieldType field = "N" /\ Decimals field = 0) ->
  read_int (formatValueForCSV (VInt64 i) field) = Some i
  /\ after_point (formatValueForCSV (VInt64 i) field) = None.
Proof.
  intros Hty.
  assert (E : formatValueForCSV (VInt64 i) field = GoStrconv.FormatInt i).
  { unfold formatValueForCSV.
    destruct Hty as [Hty|[Hty Hdec]]; rewrite Hty; [reflexivity|].
    rewrite Hdec. reflexivity. }
  rewrite E. split; [apply read_int_FormatInt|].
  rewrite <- (append_nil_r (GoStrconv.FormatInt i)).
  apply (after_point_FormatInt i "").
Qed.

Lemma integer_export_round_trips_witness :
  read_int (formatValueForCSV (VInt64 (-1204)) (mkField "QTY" "N" 6 0)) = Some (-1204)
  /\ after_point (formatValueForCSV (VInt64 (-1204)) (mkField "QTY" "N" 6 0)) = None.
Proof.
  apply (integer_export_round_trips (-1204) (mkField "QTY" "N" 6 0)).
  right. split; reflexivity.
Defined.

(** X16: a Currency field exports with exactly four digits after the
    decimal point, whatever its declared scale, for every value that is
    not [nil] and whose [float64] reading is finite. *)
Theorem currency_export_has_four_decimals (value : value) (field : FieldHeader) :
  FieldType field = "Y" ->
  value <> VNil ->
  GoStrconv.is_finite (ToFloat64 value) = true ->
  decimals_shown (formatValueForCSV value field) = Some 4%nat.
Proof.
  intros Hty Hnil Hfin.
  assert (E : formatValueForCSV value field = GoStrconv.FormatFloat (ToFloat64 value) 4).
  { destruct value; try congruence; unfold formatValueForCSV; rewrite Hty; reflexivity. }
  rewrite E. apply (decimals_shown_FormatFloat (ToFloat64 value) 4); [lia|exact Hfin].
Qed.

Lemma currency_export_has_four_decimals_witness :
  decimals_shown
    (formatValueForCSV (VFloat64 (S754_finite false 6949617174986097 (-49)))
       (mkField "PRICE" "Y" 8 2))
  = Some 4%nat.
Proof.
  apply (currency_export_has_four_decimals
           (VFloat64 (S754_finite false 6949617174986097 (-49)))
           (mkField "PRICE" "Y" 8 2)).
  - reflexivity.
  - discriminate.
  - reflexivity.
Defined.

(** *** Character fields *)

















(* ================================================================== *)
(** ** Further properties of the rows and the progress lines *)
(* ================================================================== *)

Lemma live_rows_width d :
  paired d ->
  forall n i,
    Forall (fun row => List.length row = List.length (Fields d)) (live_rows d i n).
Proof.
  intros Hpaired. induction n as [|n IH]; intros i; cbn [live_rows].
  - apply List.Forall_nil.
  - destruct (row_of d i) as [row|] eqn:Hrow; [|apply IH].
    apply List.Forall_cons; [|apply IH].
    unfold row_of in Hrow.
    destruct (RecordAt d i) as [record|err] eqn:Hrec; [|discriminate].
    destruct (Deleted record); [discriminate|].
    destruct (build_row_paired (Fields d) (FieldSlice record) 0)
      as (row' & Hrow' & Hlen & _); [rewrite (Hpaired _ _ Hrec); simpl; lia|].
    rewrite Hrow' in Hrow. injection Hrow as <-.
    rewrite Hlen. now apply (Hpaired i).
Qed.

(** X18: with one value per descriptor in every record, the sink is
    rectangular however the export ends: the header has one name per
    field and every row written has as many columns as the header. *)
Theorem exported_rows_match_header env d filename silent st st' o :
  0 <= NumRecords d < 2 ^ 32 ->
  paired d ->
  create_err env filename = None ->
  write_err env [] (FieldNames d) = None ->
  exportToCSV env d filename silent st = (st', o) ->
  Forall (fun row => Z.of_nat (List.length row) = NumFields d) (sink st').
Proof.
  intros Hn Hpaired Hc Hw Hrun.
  destruct (exportToCSV_post env d filename silent st st' o Hn Hc Hw Hrun)
    as (m & _ & Hs & _).
  cbn [sink set_sink set_processed List.app] in Hs. rewrite Hs.
  unfold NumFields.
  apply List.Forall_cons.
  - unfold FieldNames. now rewrite List.length_map.
  - pose proof (live_rows_width d Hpaired m 0) as Hrows.
    rewrite List.Forall_forall in *. intros row Hin. now rewrite (Hrows row Hin).
Qed.

Lemma exported_rows_match_header_witness :
  Forall (fun row => Z.of_nat (List.length row) = NumFields sample_dbf)
    (sink (fst (exportToCSV sample_env sample_dbf "my.csv" true start))).
Proof.
  apply (exported_rows_match_header sample_env sample_dbf "my.csv" true start
           (fst (exportToCSV sample_env sample_dbf "my.csv" true start))
           (snd (exportToCSV sample_env sample_dbf "my.csv" true start))).
  - simpl. lia.
  - exact sample_dbf_paired.
  - reflexivity.
  - reflexivity.
  - vm_compute. reflexivity.
Defined.

Lemma export_record_no_progress env d silent total i st :
  total <= 1000 ->
  stdout (fst (export_record env d silent total i st)) = stdout st.
Proof.
  intros Hsmall. unfold export_record.
  destruct (RecordAt d i) as [record|err]; [|destruct silent; reflexivity].
  destruct (Deleted record); [reflexivity|].
  destruct (build_row _ _ _) as [row|]; [|reflexivity].
  state_fields. destruct (write_err env (sink st) row); [reflexivity|].
  destruct (1000 <? total) eqn:E; [apply Z.ltb_lt in E; lia|].
  rewrite Bool.andb_false_r. reflexivity.
Qed.

Lemma export_loop_no_progress fuel env d silent total :
  total <= 1000 ->
  forall i st, stdout (fst (export_loop fuel env d silent total i st)) = stdout st.
Proof.
  intros Hsmall. induction fuel as [|fuel IH]; intros i st; cbn [export_loop];
    [reflexivity|].
  destruct (i <? total); [|reflexivity].
  pose proof (export_record_no_progress env d silent total i st Hsmall) as H.
  destruct (export_record env d silent total i st) as [st' [o|]]; cbn [fst] in *.
  - exact H.
  - rewrite IH. exact H.
Qed.

(** X19: for a table of at most 1000 records an export that is not
    silent prints its opening line and no progress line, however it
    ends. *)
Theorem small_export_prints_no_progress env d filename st :
  NumRecords d <= 1000 ->
  stdout (fst (exportToCSV env d filename false st))
  = (stdout st ++ [export_banner filename])%list.
Proof.
  intros Hsmall. rewrite exportToCSV_unfold. cbv zeta iota.
  destruct (create_err env filename); [reflexivity|].
  destruct (write_err env _ _); cbn [fst]; unflush; [reflexivity|].
  rewrite (export_loop_no_progress _ _ _ _ _ Hsmall). reflexivity.
Qed.

Lemma small_export_prints_no_progress_witness :
  stdout (fst (exportToCSV sample_env sample_dbf "my.csv" false start))
  = (stdout start ++ [export_banner "my.csv"])%list.
Proof.
  apply (small_export_prints_no_progress sample_env sample_dbf "my.csv" start).
  simpl. lia.
Defined.

(* ================================================================== *)
(** ** From the command line to the sink *)
(* ================================================================== *)

(** X20: when a CSV path is set, the source opens, every record has one
    value per descriptor and no sink operation fails, [main] creates
    that one file and leaves in it the header and the rows of the
    records that are fetched and not deleted; it then exits with status
    0 under [--no-display] and goes on to the console display
    otherwise. *)
Theorem main_exports_live_rows (env : Env) (Args : list string) (d : DBF) :
  (2 <= List.length Args)%nat ->
  OpenFile env (dbfFile (parse_args Args)) (decoder_for (encoding (parse_args Args)))
  = Ok d ->
  csvOutput (parse_args Args) <> "" ->
  0 <= NumRecords d < 2 ^ 32 ->
  paired d ->
  create_err env (csvOutput (parse_args Args)) = None ->
  (forall rows row, write_err env rows row = None) ->
  created (fst (main env Args)) = [csvOutput (parse_args Args)]
  /\ sink (fst (main env Args))
     = FieldNames d :: live_rows d 0 (Z.to_nat (NumRecords d))
  /\ snd (main env Args) = if noDisplay (parse_args Args) then Exit 0 else Display d.
Proof.
  intros Hlen Hopen Hcsv Hn Hpaired Hc Hw.
  destruct (main_before_open env Args Hlen)
    as (st1 & _ & _ & Hcr & _ & _ & _ & Hmain).
  rewrite Hmain, Hopen. unfold export_if_requested.
  apply String.eqb_neq in Hcsv. rewrite Hcsv. cbn [negb].
  match goal with |- context [exportToCSV env d ?f ?q ?s0] =>
    destruct (exportToCSV_nil env d f q s0 Hn Hpaired Hc Hw) as (st' & Hrun & Hs & _);
    pose proof (exportToCSV_created env d f q s0) as Hcreated;
    rewrite Hrun in *
  end.
  cbn [fst] in Hcreated.
  destruct (noDisplay (parse_args Args)); state_fields;
    (split; [rewrite Hcreated; state_fields; rewrite Hcr; reflexivity|]);
    split; (exact Hs || reflexivity).
Qed.

Lemma main_exports_live_rows_witness :
  created (fst (main sample_env ["dbfreader"; "my.dbf"; "--csv"; "--no-display"]))
  = [csvOutput (parse_args ["dbfreader"; "my.dbf"; "--csv"; "--no-display"])]
  /\ sink (fst (main sample_env ["dbfreader"; "my.dbf"; "--csv"; "--no-display"]))
     = FieldNames sample_dbf :: live_rows sample_dbf 0 (Z.to_nat (NumRecords sample_dbf))
  /\ snd (main sample_env ["dbfreader"; "my.dbf"; "--csv"; "--no-display"])
     = if noDisplay (parse_args ["dbfreader"; "my.dbf"; "--csv"; "--no-display"])
       then Exit 0 else Display sample_dbf.
Proof.
  apply (main_exports_live_rows sample_env
           ["dbfreader"; "my.dbf"; "--csv"; "--no-display"] sample_dbf).
  - simpl. lia.
  - reflexivity.
  - discriminate.
  - simpl. lia.
  - exact sample_dbf_paired.
  - reflexivity.
  - reflexivity.
Defined.
